(** * docker-repository-proxy: a shallow embedding of [src/app.js]

    The server is one Express middleware that picks an upstream registry
    from the request's hostname and relays the Registry V2 API.  The
    embedding keeps the shape of the JavaScript:

    - strings are [string], header maps and the route table are
      [gmap string string];
    - a property read on a plain object ([routes[host]]) also sees the
      members inherited from [Object.prototype];
    - [await fetch(..)] is a node of a small effect tree [Eff], so every
      statement about "the request sent upstream" is a statement about the
      tree, and running the tree against a world gives the response;
    - the WHATWG [URL] class, which is not part of the repository, is an
      interface ([UrlLib]) the handler is parametrised by. *)

From Stdlib Require Import Ascii String.
From stdpp Require Import base option list strings gmap fin_maps.

Local Open Scope stdpp_scope.

(** ** Strings *)

Module Str.

Definition dquote : ascii := "034"%char.
Definition backslash : ascii := "092"%char.
Definition slash : ascii := "/"%char.
Definition colon : ascii := ":"%char.
Definition equals : ascii := "="%char.
Definition LF : ascii := "010"%char.
Definition CR : ascii := "013"%char.

(** The one-character string made of a double quote. *)
Definition dq : string := String dquote "".

(** [s.split(sep)] for a one-character separator: never empty. *)
Fixpoint split (sep : ascii) (s : string) : list string :=
  match s with
  | EmptyString => [""]
  | String c s' =>
      if Ascii.eqb c sep then "" :: split sep s'
      else match split sep s' with
           | h :: t => String c h :: t
           | [] => [String c ""]
           end
  end.

(** [parts.join(sep)]. *)
Definition join (sep : string) (parts : list string) : string :=
  String.concat sep parts.

(** [s.includes(c)] for a one-character needle. *)
Fixpoint includes (c : ascii) (s : string) : bool :=
  match s with
  | EmptyString => false
  | String d s' => Ascii.eqb d c || includes c s'
  end.

(** [parts.splice(i, 0, x)]: insert [x] before index [i]. *)
Definition splice_insert (i : nat) (x : string) (parts : list string)
  : list string :=
  take i parts ++ x :: drop i parts.

(** JavaScript truthiness of a string. *)
Definition nonempty (s : string) : bool :=
  match s with EmptyString => false | _ => true end.

End Str.

(** ** JavaScript values that can reach [upstream] *)

(** [routes[host]] is a property read on an object literal.  It yields the
    own property when there is one, a member of [Object.prototype] when the
    key names one, and [undefined] otherwise. *)
Inductive jsval : Type :=
| JStr (s : string)
| JInherited (name : string)
| JUndefined.

#[global] Instance jsval_eq_dec : EqDecision jsval.
Proof. solve_decision. Defined.

Module JS.

(** The property names every plain object inherits (Node.js / V8). *)
Definition object_prototype_names : list string :=
  [ "constructor"; "__defineGetter__"; "__defineSetter__";
    "hasOwnProperty"; "__lookupGetter__"; "__lookupSetter__";
    "isPrototypeOf"; "propertyIsEnumerable"; "toString"; "valueOf";
    "__proto__"; "toLocaleString" ].

(** [obj[key]] on an object literal whose own properties are [own]. *)
Definition get (own : gmap string string) (key : string) : jsval :=
  match own !! key with
  | Some v => JStr v
  | None =>
      if bool_decide (key ∈ object_prototype_names) then JInherited key
      else JUndefined
  end.

(** [if (v)] / [!v]. *)
Definition truthy (v : jsval) : bool :=
  match v with
  | JStr s => Str.nonempty s
  | JInherited _ => true
  | JUndefined => false
  end.

(** [String(v)], as used by [v + '...'].  The inherited members are
    native functions, except [__proto__], which reads the prototype
    object itself. *)
Definition to_string (v : jsval) : string :=
  match v with
  | JStr s => s
  | JInherited name =>
      if String.eqb name "__proto__" then "[object Object]"
      else if String.eqb name "constructor"
           then "function Object() { [native code] }"
           else "function " +:+ name +:+ "() { [native code] }"
  | JUndefined => "undefined"
  end.

(** [String(v)] of a string that may be missing, as a property key and
    in a template literal: a missing value reads [undefined]. *)
Definition string_of (o : option string) : string :=
  default "undefined" o.

End JS.

(** ** Configuration and the route table *)

(** The three settings read from the environment, after their defaults. *)
Record Config : Type := mkConfig {
  CUSTOM_DOMAIN : string;
  MODE : string;
  TARGET_UPSTREAM : string;
}.

(** [process.env.X || fallback]: an unset or empty variable takes the
    fallback. *)
Definition env_or (v : option string) (fallback : string) : string :=
  match v with
  | Some s => if Str.nonempty s then s else fallback
  | None => fallback
  end.

Definition load_config (custom_domain mode target : option string) : Config :=
  {| CUSTOM_DOMAIN := env_or custom_domain "example.com";
     MODE := env_or mode "production";
     TARGET_UPSTREAM := env_or target "" |}.

Definition dockerHub : string := "https://registry-1.docker.io".

(** The object literal [routes]; the entries are defined in source order,
    so a later entry would replace an earlier one with the same key. *)
Definition routes (cfg : Config) : gmap string string :=
  let d := CUSTOM_DOMAIN cfg in
  <["docker-staging." +:+ d := dockerHub]>
  (<["ecr." +:+ d := "https://public.ecr.aws"]>
  (<["cloudsmith." +:+ d := "https://docker.cloudsmith.io"]>
  (<["ghcr." +:+ d := "https://ghcr.io"]>
  (<["k8s." +:+ d := "https://registry.k8s.io"]>
  (<["k8s-gcr." +:+ d := "https://k8s.gcr.io"]>
  (<["gcr." +:+ d := "https://gcr.io"]>
  (<["quay." +:+ d := "https://quay.io"]>
  (<["docker." +:+ d := dockerHub]> ∅)))))))).

Definition is_debug (cfg : Config) : bool := String.eqb (MODE cfg) "debug".

(** [routeByHosts(host)]. *)
Definition routeByHosts (cfg : Config) (host : string) : jsval :=
  if JS.truthy (JS.get (routes cfg) host) then JS.get (routes cfg) host
  else if is_debug cfg then JStr (TARGET_UPSTREAM cfg)
  else JStr "".

(** ** URLs

    What the handler reads from a WHATWG [URL] object.  [protocol] keeps
    its colon ([http:]), [port] is empty for the scheme's default port and
    [search] is empty or starts with a question mark. *)
Record URL : Type := mkURL {
  protocol : string;
  hostname : string;
  port : string;
  pathname : string;
  search : string;
}.

#[global] Instance URL_eq_dec : EqDecision URL.
Proof. solve_decision. Defined.

(** [url.host]: the hostname, with the port when there is one. *)
Definition host (u : URL) : string :=
  if Str.nonempty (port u) then hostname u +:+ ":" +:+ port u else hostname u.

(** [url.toString()]. *)
Definition href (u : URL) : string :=
  protocol u +:+ "//" +:+ host u +:+ pathname u +:+ search u.

(** [url.pathname = p] on a path that is already in parsed form. *)
Definition set_pathname (u : URL) (p : string) : URL :=
  {| protocol := protocol u; hostname := hostname u; port := port u;
     pathname := p; search := search u |}.

Definition set_search (u : URL) (q : string) : URL :=
  {| protocol := protocol u; hostname := hostname u; port := port u;
     pathname := pathname u; search := q |}.

(** The parts of the URL class whose code lives outside the repository. *)
Class UrlLib : Type := {
  (** [new URL(s)]; [None] when the constructor throws. *)
  url_parse : string -> option URL;
  (** [new URL(s, base)]. *)
  url_parse_base : string -> string -> option URL;
  (** [searchParams.get(name)] on a URL whose [search] is the argument. *)
  query_get : string -> string -> option string;
  (** [search] after [searchParams.set(name, value)]. *)
  query_set : string -> string -> string -> string;
}.

(** ** HTTP messages *)

(** An Express request.  [req_hostname] is Express's [req.hostname];
    header names are in lower case, as Node delivers them. *)
Record Request : Type := mkRequest {
  req_hostname : option string;
  req_method : string;
  req_url : string;
  req_headers : gmap string string;
  req_body : string;
}.

(** The arguments of one [fetch] call.  Header names are case-insensitive
    and held in lower case; [fr_redirect] is the [redirect] option when the
    call gives one. *)
Record FetchRequest : Type := mkFetch {
  fr_url : string;
  fr_method : string;
  fr_headers : gmap string string;
  fr_redirect : option string;
  fr_body : option string;
}.

#[global] Instance FetchRequest_eq_dec : EqDecision FetchRequest.
Proof. solve_decision. Defined.

(** What [fetch] resolves to. *)
Record UpResponse : Type := mkUp {
  status : nat;
  resp_headers : gmap string string;
  resp_body : option string;
}.

#[global] Instance UpResponse_eq_dec : EqDecision UpResponse.
Proof. solve_decision. Defined.

(** The JSON bodies the server writes: a string, a string table, or an
    object with one field. *)
Inductive json : Type :=
| JsonString (s : string)
| JsonMap (m : gmap string string)
| JsonField (key : string) (value : json).

(** What the middleware sends to the client, one constructor per way the
    source ends a response. *)
Inductive Response : Type :=
| ResJson (code : nat) (headers : gmap string string) (body : json)
| ResRedirect (code : nat) (location : string)
| ResStream (resp : UpResponse)
| ResSend (code : nat) (body : string).

(** A header of the response, by the name it was set under. *)
Definition header_of (res : Response) (name : string) : option string :=
  match res with
  | ResJson _ headers _ => headers !! name
  | ResStream resp => resp_headers resp !! name
  | _ => None
  end.

Inductive Error : Type :=
| InvalidURL (input : string)
| InvalidAuthenticate (header : string)
| FetchFailed (url : string).

(** Two client requests that differ at most in their [authorization]
    header. *)
Definition same_but_authorization (req1 req2 : Request) : Prop :=
  req_hostname req1 = req_hostname req2 /\
  req_method req1 = req_method req2 /\
  req_url req1 = req_url req2 /\
  req_body req1 = req_body req2 /\
  forall name, name <> "authorization" ->
    req_headers req1 !! name = req_headers req2 !! name.

(** ** The effect of awaiting [fetch] *)

Inductive Eff (A : Type) : Type :=
| Ret (a : A)
| Throw (e : Error)
| Fetch (q : FetchRequest) (k : UpResponse -> Eff A).

Arguments Ret {A} a.
Arguments Throw {A} e.
Arguments Fetch {A} q k.

Fixpoint Eff_bind {A B : Type} (f : A -> Eff B) (m : Eff A) : Eff B :=
  match m with
  | Ret a => f a
  | Throw e => Throw e
  | Fetch q k => Fetch q (fun r => Eff_bind f (k r))
  end.

#[global] Instance Eff_ret : MRet Eff := @Ret.
#[global] Instance Eff_mbind : MBind Eff := @Eff_bind.

Definition fetch (q : FetchRequest) : Eff UpResponse := Fetch q Ret.

Definition try_option {A : Type} (e : Error) (o : option A) : Eff A :=
  match o with Some a => Ret a | None => Throw e end.

Definition try_sum {A : Type} (r : Error + A) : Eff A :=
  match r with inl e => Throw e | inr a => Ret a end.

(** A world answers each [fetch] from the requests made so far while this
    client request is handled; [None] is a network failure, which rejects
    the promise. *)
Definition World : Type := list FetchRequest -> FetchRequest -> option UpResponse.

Fixpoint run {A : Type} (w : World) (sent : list FetchRequest) (m : Eff A)
  : Error + A :=
  match m with
  | Ret a => inr a
  | Throw e => inl e
  | Fetch q k =>
      match w sent q with
      | Some r => run w (sent ++ [q]) (k r)
      | None => inl (FetchFailed (fr_url q))
      end
  end.

(** ** [parseAuthenticate] *)

Record Challenge : Type := mkChallenge {
  realm : string;
  service : string;
}.

Module Regex.

(** The matcher for the regular expression of [parseAuthenticate]: a
    lookbehind for an equals sign and a double quote, a greedy body, and
    a lookahead for a double quote, with the [g] flag.

    The body is a run of tokens, each either a backslash with the
    character after it or one character that is neither a quote nor a
    backslash.  A position has one tokenisation, and no token starts with
    a quote, so the greedy run either stops in front of a quote, which is
    the match, or the position has no match at all. *)

(** [.] does not match a line terminator. *)
Definition line_terminator (c : ascii) : bool :=
  Ascii.eqb c Str.LF || Ascii.eqb c Str.CR.

Fixpoint value_body (s : string) : option string :=
  match s with
  | EmptyString => None
  | String c s' =>
      if Ascii.eqb c Str.dquote then Some ""
      else if Ascii.eqb c Str.backslash then
        match s' with
        | EmptyString => None
        | String d s'' =>
            if line_terminator d then None
            else option_map (fun b => String c (String d b)) (value_body s'')
        end
      else option_map (String c) (value_body s')
  end.

(** The lookbehind: the two characters before the position are an
    equals sign and a double quote. *)
Definition lookbehind (p2 p1 : option ascii) : bool :=
  bool_decide (p2 = Some Str.equals) && bool_decide (p1 = Some Str.dquote).

(** [str.match(re)] with the [g] flag, read left to right.  [p2] and
    [p1] are the two characters before the current position; [skip]
    counts the positions still covered by the last match, where no match
    is tried.  After a match of length [n] at position [p] the search
    resumes at [p + n], or at [p + 1] when the match is empty. *)
Fixpoint match_all (p2 p1 : option ascii) (skip : nat) (s : string)
  : list string :=
  let attempt :=
    match skip with
    | O => if lookbehind p2 p1 then value_body s else None
    | S _ => None
    end in
  let skip' :=
    match attempt with
    | Some b => pred (String.length b)
    | None => pred skip
    end in
  let later :=
    match s with
    | EmptyString => []
    | String c s' => match_all p1 (Some c) skip' s'
    end in
  match attempt with
  | Some b => b :: later
  | None => later
  end.

Definition matches (s : string) : list string := match_all None None 0 s.

(** A text without double quote and without backslash. *)
Definition plain (s : string) : bool :=
  negb (Str.includes Str.dquote s) && negb (Str.includes Str.backslash s).

Fixpoint last_char (s : string) : option ascii :=
  match s with
  | EmptyString => None
  | String c s' =>
      match last_char s' with
      | Some d => Some d
      | None => Some c
      end
  end.

(** The two characters before the position reached by reading [s]. *)
Fixpoint behind (p2 p1 : option ascii) (s : string)
  : option ascii * option ascii :=
  match s with
  | EmptyString => (p2, p1)
  | String c s' => behind p1 (Some c) s'
  end.

(** The character in front of the closing quote of a value: its last
    character, or the opening quote when it is empty. *)
Definition before_closing (v : string) : option ascii :=
  match last_char v with Some c => Some c | None => Some Str.dquote end.

End Regex.

Definition parseAuthenticate (authenticateStr : string) : Error + Challenge :=
  match Regex.matches authenticateStr with
  | m0 :: m1 :: _ => inr {| realm := m0; service := m1 |}
  | _ => inl (InvalidAuthenticate authenticateStr)
  end.

(** ** [responseUnauthorized] *)

Definition unauthorized_challenge (scheme proxy_host svc : string) : string :=
  "Bearer realm=" +:+ Str.dq +:+ scheme +:+ "://" +:+ proxy_host +:+ "/v2/auth"
    +:+ Str.dq +:+ ",service=" +:+ Str.dq +:+ svc +:+ Str.dq.

Definition responseUnauthorized (cfg : Config) (url : URL) : Response :=
  let headers : gmap string string :=
    if is_debug cfg
    then {[ "WWW-Authenticate" :=
              unauthorized_challenge "http" (host url) "docker-repository-proxy" ]}
    else {[ "WWW-Authenticate" :=
              unauthorized_challenge "https" (hostname url) "docker-repository-proxy" ]} in
  ResJson 401 headers (JsonField "message" (JsonString "UNAUTHORIZED")).

(** ** The pieces of the middleware *)

(** The headers object of the probe and of [fetchToken]: the client's
    [Authorization] when it is there and not empty. *)
Definition authorization_headers (authorization : option string)
  : gmap string string :=
  match authorization with
  | Some a => if Str.nonempty a then {[ "authorization" := a ]} else ∅
  | None => ∅
  end.

(** The scope completion of the token exchange (the [if (scope &&
    isDockerHub)] block). *)
Definition rewriteScope (isDockerHub : bool) (scope : option string)
  : option string :=
  match scope with
  | Some s =>
      if Str.nonempty s && isDockerHub then
        match Str.split Str.colon s with
        | [p0; p1; p2] =>
            if negb (Str.includes Str.slash p1)
            then Some (Str.join ":" [p0; "library/" +:+ p1; p2])
            else Some s
        | _ => Some s
        end
      else Some s
  | None => None
  end.

(** The header object of the generic forwarder. *)
Definition forwardHeaders (client : gmap string string) (upstream_host : string)
  : gmap string string :=
  delete "accept-encoding" (<["host" := upstream_host]> client).

(** The [if (isDockerHub)] block in front of the forwarder; [None] when
    the block falls through. *)
Definition normalizePath (isDockerHub : bool) (url : URL) : option Response :=
  if isDockerHub then
    let pathParts := Str.split Str.slash (pathname url) in
    if Nat.eqb (length pathParts) 5 then
      let redirectUrl :=
        set_pathname url (Str.join "/" (Str.splice_insert 2 "library" pathParts)) in
      Some (ResRedirect 301 (href redirectUrl))
    else None
  else None.

Section Middleware.

Context {lib : UrlLib}.
Variable cfg : Config.

Definition new_URL (s : string) : Eff URL :=
  try_option (InvalidURL s) (url_parse s).

Definition new_URL_base (s base : string) : Eff URL :=
  try_option (InvalidURL s) (url_parse_base s base).

(** The two [searchParams.set] calls of [fetchToken]: [service] when
    it is not empty, then [scope] when there is one. *)
Definition token_address (wwwAuthenticate : Challenge)
    (scope : option string) (url : URL) : URL :=
  let url :=
    if Str.nonempty (service wwwAuthenticate)
    then set_search url (query_set (search url) "service" (service wwwAuthenticate))
    else url in
  match scope with
  | Some s =>
      if Str.nonempty s then set_search url (query_set (search url) "scope" s)
      else url
  | None => url
  end.

(** [fetchToken(wwwAuthenticate, scope, authorization)]. *)
Definition fetchToken (wwwAuthenticate : Challenge) (scope : option string)
    (authorization : option string) : Eff UpResponse :=
  url ← new_URL (realm wwwAuthenticate);
  fetch {| fr_url := href (token_address wwwAuthenticate scope url);
           fr_method := "GET";
           fr_headers := authorization_headers authorization;
           fr_redirect := None; fr_body := None |}.

(** The [/v2/] branch. *)
Definition probe (upstream : jsval) (authorization : option string)
    (url : URL) : Eff Response :=
  newUrl ← new_URL (JS.to_string upstream +:+ "/v2/");
  resp ← fetch {| fr_url := href newUrl; fr_method := "GET";
                  fr_headers := authorization_headers authorization;
                  fr_redirect := Some "follow"; fr_body := None |};
  if Nat.eqb (status resp) 401 then Ret (responseUnauthorized cfg url)
  else Ret (ResStream resp).

(** The request the [/v2/auth] branch opens with. *)
Definition discovery (newUrl : URL) : FetchRequest :=
  {| fr_url := href newUrl; fr_method := "GET"; fr_headers := ∅;
     fr_redirect := Some "follow"; fr_body := None |}.

(** The [/v2/auth] branch. *)
Definition auth (upstream : jsval) (isDockerHub : bool)
    (authorization : option string) (url : URL) : Eff Response :=
  newUrl ← new_URL (JS.to_string upstream +:+ "/v2/");
  resp ← fetch (discovery newUrl);
  if negb (Nat.eqb (status resp) 401) then Ret (ResStream resp)
  else
    match resp_headers resp !! "www-authenticate" with
    | None => Ret (ResStream resp)
    | Some authenticateStr =>
        if negb (Str.nonempty authenticateStr) then Ret (ResStream resp)
        else
          wwwAuthenticate ← try_sum (parseAuthenticate authenticateStr);
          let scope := rewriteScope isDockerHub (query_get (search url) "scope") in
          tokenResp ← fetchToken wwwAuthenticate scope authorization;
          Ret (ResStream tokenResp)
    end.

Definition has_body (method : string) : bool :=
  negb (String.eqb method "GET") && negb (String.eqb method "HEAD").

(** The generic forwarder. *)
Definition forward (upstream : jsval) (req : Request) (url : URL)
  : Eff Response :=
  newUrl ← new_URL (JS.to_string upstream +:+ pathname url +:+ search url);
  upstreamUrl ← new_URL (JS.to_string upstream);
  let headers := forwardHeaders (req_headers req) (host upstreamUrl) in
  let body := if has_body (req_method req) then Some (req_body req) else None in
  upstreamResp ← fetch {| fr_url := href newUrl; fr_method := req_method req;
                          fr_headers := headers;
                          fr_redirect := Some "follow"; fr_body := body |};
  if Nat.eqb (status upstreamResp) 401 then Ret (responseUnauthorized cfg url)
  else Ret (ResStream upstreamResp).

Definition notFound : Response :=
  ResJson 404 ∅ (JsonField "routes" (JsonMap (routes cfg))).

(** [routeByHosts(req.hostname)]. *)
Definition upstream_of (req : Request) : jsval :=
  routeByHosts cfg (JS.string_of (req_hostname req)).

(** The base the request URL is resolved against. *)
Definition base_of (req : Request) : string :=
  "http://" +:+ JS.string_of (req_headers req !! "host").

(** The body of the first [app.use]. *)
Definition handler (req : Request) : Eff Response :=
  let upstream := upstream_of req in
  if negb (JS.truthy upstream) then Ret notFound
  else
    let isDockerHub := bool_decide (upstream = JStr dockerHub) in
    let authorization := req_headers req !! "authorization" in
    url ← new_URL_base (req_url req) (base_of req);
    if String.eqb (pathname url) "/v2/" then probe upstream authorization url
    else if String.eqb (pathname url) "/v2/auth"
    then auth upstream isDockerHub authorization url
    else
      match normalizePath isDockerHub url with
      | Some redirect => Ret redirect
      | None => forward upstream req url
      end.

(** The second [app.use]: the error middleware. *)
Definition errorMiddleware (err : Error) : Response :=
  ResSend 500 "Internal Server Error".

(** One client request against a world: the handler, with [catch (err)
    { next(err) }] handing every exception to the error middleware. *)
Definition serve (w : World) (req : Request) : Response :=
  match run w [] (handler req) with
  | inr res => res
  | inl err => errorMiddleware err
  end.

End Middleware.

(** ** The older server file

    The repository also holds an earlier copy of the server that buffers
    bodies instead of streaming them.  Its route table, scope completion,
    path redirect and header copy are the statements embedded above; its
    401 helper names another service. *)
Module Legacy.

Definition responseUnauthorized (cfg : Config) (url : URL) : Response :=
  let headers : gmap string string :=
    if is_debug cfg
    then {[ "WWW-Authenticate" :=
              unauthorized_challenge "http" (host url) "cloudflare-docker-proxy" ]}
    else {[ "WWW-Authenticate" :=
              unauthorized_challenge "https" (hostname url) "cloudflare-docker-proxy" ]} in
  ResJson 401 headers (JsonField "message" (JsonString "UNAUTHORIZED")).

End Legacy.

(** ** The specification's wording, for comparison *)

Module SpecWords.

(** The double-quoted values of a text, in order: what stands between a
    double quote and the next double quote that is not escaped. *)
Fixpoint quoted_values (skip : nat) (s : string) : list string :=
  match s with
  | EmptyString => []
  | String c s' =>
      match skip with
      | S n => quoted_values n s'
      | O =>
          if Ascii.eqb c Str.dquote then
            match Regex.value_body s' with
            | Some b => b :: quoted_values (S (String.length b)) s'
            | None => quoted_values 0 s'
            end
          else quoted_values 0 s'
      end
  end.

(** Challenge parsing as the specification words it: the first two
    quoted values, or a failure when there are fewer. *)
Definition parse_challenge (s : string) : option Challenge :=
  match quoted_values 0 s with
  | v1 :: v2 :: _ => Some {| realm := v1; service := v2 |}
  | _ => None
  end.

(** The Unauthorized Response with one proxy host for both modes. *)
Definition unauthorized (cfg : Config) (proxy_host : string) : Response :=
  ResJson 401
    {[ "WWW-Authenticate" :=
         unauthorized_challenge (if is_debug cfg then "http" else "https")
           proxy_host "docker-repository-proxy" ]}
    (JsonField "message" (JsonString "UNAUTHORIZED")).

End SpecWords.

(** ** A small URL library for concrete runs

    Enough of the URL class for the addresses of the examples: an http or
    https scheme, a host with an optional port, a path and a query; a
    request target that starts with two slashes names its own host; the
    query parameters are read and written in the form-urlencoded way. *)
Module SimpleUrl.

Fixpoint strip_prefix (p s : string) : option string :=
  match p, s with
  | EmptyString, _ => Some s
  | String a p', String b s' =>
      if Ascii.eqb a b then strip_prefix p' s' else None
  | String _ _, EmptyString => None
  end.

(** Cut [s] in front of the first character that satisfies [f]. *)
Fixpoint break (f : ascii -> bool) (s : string) : string * string :=
  match s with
  | EmptyString => ("", "")
  | String c s' =>
      if f c then ("", s)
      else let '(a, b) := break f s' in (String c a, b)
  end.

Definition tail (s : string) : string :=
  match s with String _ s' => s' | EmptyString => "" end.

Definition is_char (c : ascii) : ascii -> bool := Ascii.eqb c.

Definition path_and_query (s : string) : string * string :=
  let '(p, q) := break (is_char "?") s in
  (p, if String.eqb q "?" then "" else q).

Definition parse_after_scheme (proto default_port rest : string)
  : option URL :=
  let '(authority, rest') :=
    break (fun c => is_char "/" c || is_char "?" c) rest in
  let '(h, p) := break (is_char ":") authority in
  let '(path, q) := path_and_query rest' in
  if Str.nonempty h then
    Some {| protocol := proto; hostname := h;
            port := if String.eqb (tail p) default_port then "" else tail p;
            pathname := if Str.nonempty path then path else "/";
            search := q |}
  else None.

Definition parse (s : string) : option URL :=
  match strip_prefix "https://" s with
  | Some rest => parse_after_scheme "https:" "443" rest
  | None =>
      match strip_prefix "http://" s with
      | Some rest => parse_after_scheme "http:" "80" rest
      | None => None
      end
  end.

(** [new URL(s, base)]: a target with two leading slashes takes the
    scheme of the base and names the host itself; a target with one
    leading slash replaces path and query of the base; anything else has
    to be an address of its own. *)
Definition parse_base (s base : string) : option URL :=
  match s with
  | String "/" (String "/" _) =>
      match parse base with
      | Some b => parse (protocol b +:+ s)
      | None => None
      end
  | String "/" _ =>
      match parse base with
      | Some b =>
          let '(path, q) := path_and_query s in
          Some (set_search (set_pathname b path) q)
      | None => None
      end
  | _ => parse s
  end.

Definition code (c : ascii) : nat := Ascii.nat_of_ascii c.

Definition between (lo hi n : nat) : bool := Nat.leb lo n && Nat.leb n hi.

(** The characters the form-urlencoded serializer leaves as they are:
    letters, digits, and the four marks [*], [-], [.], [_]. *)
Definition unreserved (c : ascii) : bool :=
  between 48 57 (code c) || between 65 90 (code c) || between 97 122 (code c)
  || Nat.eqb (code c) 42 || Nat.eqb (code c) 45 || Nat.eqb (code c) 46
  || Nat.eqb (code c) 95.

Definition hex_digit (n : nat) : ascii :=
  default "0"%char (String.get n "0123456789ABCDEF").

Definition hex_value (c : ascii) : option nat :=
  if between 48 57 (code c) then Some (code c - 48)
  else if between 65 70 (code c) then Some (code c - 55)
  else if between 97 102 (code c) then Some (code c - 87)
  else None.

(** A blank becomes a plus sign, every other reserved byte a percent
    sign with two hexadecimal digits. *)
Fixpoint encode (s : string) : string :=
  match s with
  | EmptyString => ""
  | String c s' =>
      if Nat.eqb (code c) 32 then String "+" (encode s')
      else if unreserved c then String c (encode s')
      else String "%" (String (hex_digit (code c / 16))
                         (String (hex_digit (code c mod 16)) (encode s')))
  end.

Fixpoint decode (s : string) : string :=
  match s with
  | EmptyString => ""
  | String c s' =>
      if Nat.eqb (code c) 43 then String " " (decode s')
      else if Nat.eqb (code c) 37 then
        match s' with
        | String a (String b s'') =>
            match hex_value a, hex_value b with
            | Some x, Some y =>
                String (Ascii.ascii_of_nat (16 * x + y)) (decode s'')
            | _, _ => String c (decode s')
            end
        | _ => String c (decode s')
        end
      else String c (decode s')
  end.

(** The name and value pairs of a query, decoded. *)
Definition pairs (q : string) : list (string * string) :=
  match q with
  | String "?" q' =>
      (fun kv => let '(k, v) := break (is_char "=") kv in (decode k, decode (tail v)))
        <$> filter (fun kv => kv <> "") (Str.split "&" q')
  | _ => []
  end.

Definition query_lookup (q name : string) : option string :=
  (fun found => snd (snd found)) <$> list_find (fun kv => fst kv = name) (pairs q).

Fixpoint set_pair (name value : string) (found : bool)
    (l : list (string * string)) : list (string * string) :=
  match l with
  | [] => if found then [] else [(name, value)]
  | (k, v) :: l' =>
      if String.eqb k name
      then if found then set_pair name value true l'
           else (name, value) :: set_pair name value true l'
      else (k, v) :: set_pair name value found l'
  end.

Definition query_update (q name value : string) : string :=
  "?" +:+ Str.join "&"
    ((fun kv => encode (fst kv) +:+ "=" +:+ encode (snd kv))
       <$> set_pair name value false (pairs q)).

Definition lib : UrlLib :=
  {| url_parse := parse; url_parse_base := parse_base;
     query_get := query_lookup; query_set := query_update |}.

End SimpleUrl.

(** ** Concrete configurations, requests and worlds *)

Module Sample.

Definition production : Config :=
  {| CUSTOM_DOMAIN := "api.example.com"; MODE := "production";
     TARGET_UPSTREAM := "" |}.

Definition debug : Config :=
  {| CUSTOM_DOMAIN := "api.example.com"; MODE := "debug";
     TARGET_UPSTREAM := "https://quay.io" |}.

Definition GET (hostname url : string) (headers : gmap string string)
  : Request :=
  {| req_hostname := Some hostname; req_method := "GET"; req_url := url;
     req_headers := <["host" := hostname]> headers; req_body := "" |}.

Definition key_value (k v : string) : string :=
  k +:+ "=" +:+ Str.dq +:+ v +:+ Str.dq.

(** Docker Hub's challenge. *)
Definition hub_challenge : string :=
  "Bearer " +:+ key_value "realm" "https://auth.docker.io/token" +:+ ","
    +:+ key_value "service" "registry.docker.io".

Definition hub_401 : UpResponse :=
  {| status := 401;
     resp_headers := {[ "www-authenticate" := hub_challenge ]};
     resp_body := Some "{}" |}.

Definition token_200 : UpResponse :=
  {| status := 200; resp_headers := ∅; resp_body := Some "{token}" |}.

(** The registry challenges every request; the token realm answers
    [realm_answer]. *)
Definition hub_world (realm_answer : UpResponse) : World :=
  fun _ q =>
    if bool_decide (SimpleUrl.strip_prefix "https://auth.docker.io/" (fr_url q) = None)
    then Some hub_401 else Some realm_answer.

(** The client URL of a proxy reached on port 8443. *)
Definition url_8443 : URL :=
  {| protocol := "http:"; hostname := "docker.api.example.com";
     port := "8443"; pathname := "/v2/"; search := "" |}.

Definition url_at (name path query : string) : URL :=
  {| protocol := "http:"; hostname := name;
     port := ""; pathname := path; search := query |}.

Definition url_docker : string -> string -> URL :=
  url_at "docker.api.example.com".

(** Every request is answered [answer]. *)
Definition constant_world (answer : UpResponse) : World :=
  fun _ _ => Some answer.

End Sample.

(** ** Executions

    [exec m tr o]: the tree [m] can run with the exchanges [tr], in order,
    and end in [o].  An exchange without a response is a [fetch] that
    failed. *)
Inductive exec {A : Type}
  : Eff A -> list (FetchRequest * option UpResponse) -> Error + A -> Prop :=
| exec_Ret a : exec (Ret a) [] (inr a)
| exec_Throw e : exec (Throw e) [] (inl e)
| exec_Fetch q k r tr o :
    exec (k r) tr o -> exec (Fetch q k) ((q, Some r) :: tr) o
| exec_Fetch_failed q k :
    exec (Fetch q k) [(q, None)] (inl (FetchFailed (fr_url q))).

(** The exchanges of [run]. *)
Fixpoint trace {A : Type} (w : World) (sent : list FetchRequest) (m : Eff A)
  : list (FetchRequest * option UpResponse) :=
  match m with
  | Ret _ | Throw _ => []
  | Fetch q k =>
      match w sent q with
      | Some r => (q, Some r) :: trace w (sent ++ [q]) (k r)
      | None => [(q, None)]
      end
  end.

(** The request a tree starts with, if it starts with one. *)
Definition first_request {A : Type} (m : Eff A) : option FetchRequest :=
  match m with
  | Fetch q _ => Some q
  | _ => None
  end.

(** * Properties *)

(** ** Running and executions *)

Lemma run_exec {A : Type} (w : World) (m : Eff A) sent :
  exec m (trace w sent m) (run w sent m).
Proof.
  revert sent. induction m as [a|e|q k IH]; intros sent; simpl.
  - constructor.
  - constructor.
  - destruct (w sent q) as [r|]; [apply exec_Fetch, IH | apply exec_Fetch_failed].
Qed.

Lemma exec_deterministic {A : Type} (m : Eff A) tr o1 o2 :
  exec m tr o1 -> exec m tr o2 -> o1 = o2.
Proof.
  intros H1. revert o2. induction H1; intros o2 H2; inversion H2; subst; auto.
Qed.

(** Every execution is the run against some world. *)
Lemma exec_run {A : Type} (m : Eff A) tr o :
  exec m tr o -> exists w, run w [] m = o /\ trace w [] m = tr.
Proof.
  intros H.
  cut (forall sent, exists w,
          run w sent m = o /\ trace w sent m = tr).
  { intros C. apply (C []). }
  induction H as [a|e|q k r tr o H IH|q k]; intros sent.
  - exists (fun _ _ => None). by split.
  - exists (fun _ _ => None). by split.
  - destruct (IH (sent ++ [q])) as (w & Hr & Ht).
    exists (fun s q' => if decide (length s = length sent) then Some r else w s q').
    simpl. rewrite decide_True by done.
    assert (G : forall (B : Type) (n : Eff B) s, length sent < length s ->
      run (fun s q' => if decide (length s = length sent) then Some r else w s q') s n
        = run w s n /\
      trace (fun s q' => if decide (length s = length sent) then Some r else w s q') s n
        = trace w s n).
    { intros B n. induction n as [b|e|q' k' IHn]; intros s Hs; simpl; [done..|].
      rewrite decide_False by lia.
      destruct (w s q') as [r'|]; [|done].
      destruct (IHn r' (s ++ [q'])) as [-> ->]; [rewrite length_app; simpl; lia|done]. }
    destruct (G _ (k r) (sent ++ [q])) as [-> ->].
    { rewrite length_app. simpl. lia. }
    by rewrite Hr, Ht.
  - exists (fun _ _ => None). by split.
Qed.

(** ** The route table *)

Lemma routes_values_nonempty cfg h u :
  routes cfg !! h = Some u -> Str.nonempty u = true.
Proof.
  unfold routes. intros H.
  repeat (apply lookup_insert_Some in H as [[_ <-]|[_ H]]; [reflexivity|]).
  by rewrite lookup_empty in H.
Qed.

Lemma routeByHosts_present cfg h u :
  routes cfg !! h = Some u -> routeByHosts cfg h = JStr u.
Proof.
  intros H. unfold routeByHosts, JS.get. rewrite H. simpl.
  by rewrite (routes_values_nonempty _ _ _ H).
Qed.

Lemma routeByHosts_inherited cfg h :
  routes cfg !! h = None -> h ∈ JS.object_prototype_names ->
  routeByHosts cfg h = JInherited h.
Proof.
  intros H Hin. unfold routeByHosts, JS.get. rewrite H.
  by rewrite bool_decide_eq_true_2.
Qed.

Lemma routeByHosts_absent cfg h :
  routes cfg !! h = None -> h ∉ JS.object_prototype_names ->
  routeByHosts cfg h = if is_debug cfg then JStr (TARGET_UPSTREAM cfg) else JStr "".
Proof.
  intros H Hin. unfold routeByHosts, JS.get. rewrite H.
  by rewrite bool_decide_eq_false_2.
Qed.

(** The path and the method play no part in the resolution, and a host of
    the table resolves to its entry in either mode. *)
Lemma resolve_configured cfg (req : Request) h u :
  req_hostname req = Some h -> routes cfg !! h = Some u ->
  routeByHosts cfg (JS.string_of (req_hostname req)) = JStr u.
Proof. intros -> H. by apply routeByHosts_present. Qed.

Lemma routes_no_inherited cfg h :
  h ∈ JS.object_prototype_names -> routes cfg !! h = None.
Proof.
  unfold JS.object_prototype_names. intros Hin.
  repeat (apply elem_of_cons in Hin as [->|Hin];
          [unfold routes;
           repeat (rewrite lookup_insert_ne; [|simpl; discriminate]);
           apply lookup_empty|]).
  by apply elem_of_nil in Hin.
Qed.

Lemma constructor_inherited : "constructor" ∈ JS.object_prototype_names.
Proof. unfold JS.object_prototype_names. set_solver. Qed.

(** C6, at the failing inputs: in production mode a host name that every
    object inherits as a property name, such as [constructor], is not a
    key of the route table, and yet resolving it returns neither the empty
    string nor any string at all, but the inherited member, which is
    truthy. *)
Theorem C6_resolve_inherited_name :
  forall cfg h,
    is_debug cfg = false ->
    h ∈ JS.object_prototype_names ->
    routes cfg !! h = None /\
    routeByHosts cfg h = JInherited h /\
    routeByHosts cfg h <> JStr "" /\
    JS.truthy (routeByHosts cfg h) = true.
Proof.
  intros cfg h _ Hin.
  pose proof (routes_no_inherited cfg h Hin) as Hr.
  rewrite (routeByHosts_inherited _ _ Hr Hin).
  split; [done|]. split; [reflexivity|]. split; [discriminate|reflexivity].
Qed.

Lemma C6_resolve_inherited_name_witness :
  routeByHosts Sample.production "constructor" = JInherited "constructor".
Proof.
  exact (proj1 (proj2 (C6_resolve_inherited_name Sample.production "constructor"
                         eq_refl constructor_inherited))).
Defined.

(** ** Splitting and joining *)

Lemma split_not_nil sep s : Str.split sep s <> [].
Proof.
  destruct s as [|c s]; simpl; [done|].
  destruct (Ascii.eqb c sep); [done|]. by destruct (Str.split sep s).
Qed.

Lemma split_plain sep s : Str.includes sep s = false -> Str.split sep s = [s].
Proof.
  induction s as [|c s IH]; simpl; [done|].
  intros [Hc Hs]%orb_false_iff. rewrite Hc, (IH Hs). done.
Qed.

Lemma split_app sep s t :
  Str.includes sep s = false ->
  Str.split sep (s +:+ String sep t) = s :: Str.split sep t.
Proof.
  induction s as [|c s IH]; simpl.
  - intros _. by rewrite Ascii.eqb_refl.
  - intros [Hc Hs]%orb_false_iff. rewrite Hc, (IH Hs). done.
Qed.

(** ** The middleware, branch by branch *)

Ltac exec_inv H := inversion H; subst; clear H.

Section Branches.

Context {lib : UrlLib}.
Variable cfg : Config.

Lemma handler_unresolved req :
  JS.truthy (upstream_of cfg req) = false -> handler cfg req = Ret (notFound cfg).
Proof. unfold handler, upstream_of. by intros ->. Qed.

Lemma handler_bad_url req :
  JS.truthy (upstream_of cfg req) = true ->
  url_parse_base (req_url req) (base_of req) = None ->
  handler cfg req = Throw (InvalidURL (req_url req)).
Proof.
  unfold handler, upstream_of, base_of, new_URL_base. intros -> E. simpl.
  by rewrite E.
Qed.

Lemma handler_dispatch req url :
  JS.truthy (upstream_of cfg req) = true ->
  url_parse_base (req_url req) (base_of req) = Some url ->
  handler cfg req =
    if String.eqb (pathname url) "/v2/"
    then probe cfg (upstream_of cfg req) (req_headers req !! "authorization") url
    else if String.eqb (pathname url) "/v2/auth"
    then auth (upstream_of cfg req)
           (bool_decide (upstream_of cfg req = JStr dockerHub))
           (req_headers req !! "authorization") url
    else match normalizePath (bool_decide (upstream_of cfg req = JStr dockerHub)) url with
         | Some redirect => Ret redirect
         | None => forward cfg (upstream_of cfg req) req url
         end.
Proof.
  unfold handler, upstream_of, base_of, new_URL_base. intros -> E. simpl.
  by rewrite E.
Qed.

(** The executions of the [/v2/] branch: one request, which carries the
    client's authorization, and a 401 answered by the helper. *)
Lemma exec_probe upstream authorization url tr o :
  exec (probe cfg upstream authorization url) tr o ->
  (tr = [] /\ exists s, o = inl (InvalidURL s)) \/
  exists newUrl r,
    url_parse (JS.to_string upstream +:+ "/v2/") = Some newUrl /\
    tr = [({| fr_url := href newUrl; fr_method := "GET";
              fr_headers := authorization_headers authorization;
              fr_redirect := Some "follow"; fr_body := None |}, r)] /\
    match r with
    | None => exists s, o = inl (FetchFailed s)
    | Some resp =>
        o = inr (if Nat.eqb (status resp) 401
                 then responseUnauthorized cfg url else ResStream resp)
    end.
Proof.
  unfold probe, new_URL, try_option.
  destruct (url_parse _) as [newUrl|] eqn:E; cbn; intros H.
  - right. exists newUrl. exec_inv H.
    + exists (Some r). split; [done|]. cbn in *.
      destruct (Nat.eqb (status r) 401); exec_inv H4; done.
    + exists None. split; [done|]. split; [done|]. eauto.
  - left. exec_inv H. eauto.
Qed.

(** The executions of the generic forwarder. *)
Lemma exec_forward upstream req url tr o :
  exec (forward cfg upstream req url) tr o ->
  (tr = [] /\ exists s, o = inl (InvalidURL s)) \/
  exists newUrl upstreamUrl r,
    url_parse (JS.to_string upstream +:+ pathname url +:+ search url)
      = Some newUrl /\
    url_parse (JS.to_string upstream) = Some upstreamUrl /\
    tr = [({| fr_url := href newUrl; fr_method := req_method req;
              fr_headers := forwardHeaders (req_headers req) (host upstreamUrl);
              fr_redirect := Some "follow";
              fr_body := if has_body (req_method req)
                         then Some (req_body req) else None |}, r)] /\
    match r with
    | None => exists s, o = inl (FetchFailed s)
    | Some resp =>
        o = inr (if Nat.eqb (status resp) 401
                 then responseUnauthorized cfg url else ResStream resp)
    end.
Proof.
  unfold forward, new_URL, try_option.
  destruct (url_parse (_ +:+ _ +:+ _)) as [newUrl|] eqn:E1; cbn.
  - destruct (url_parse (JS.to_string upstream)) as [upstreamUrl|] eqn:E2;
      cbn; intros H.
    + right. exists newUrl, upstreamUrl. exec_inv H.
      * exists (Some r). split; [done|]. split; [done|]. cbn in *.
        destruct (Nat.eqb (status r) 401); exec_inv H4; done.
      * exists None. split; [done|]. split; [done|]. split; [done|]. eauto.
    + left. exec_inv H. eauto.
  - intros H. left. exec_inv H. eauto.
Qed.

End Branches.

Section Auth.

Context {lib : UrlLib}.
Variable cfg : Config.

(** The executions of the [/v2/auth] branch.  It opens with the
    discovery request; whatever it relays is the last response it got. *)
Lemma exec_auth upstream isDockerHub authorization url tr o :
  exec (auth upstream isDockerHub authorization url) tr o ->
  (tr = [] /\ exists s, o = inl (InvalidURL s)) \/
  exists newUrl,
    url_parse (JS.to_string upstream +:+ "/v2/") = Some newUrl /\
    ((tr = [(discovery newUrl, None)] /\ exists s, o = inl (FetchFailed s)) \/
     exists resp,
       (tr = [(discovery newUrl, Some resp)] /\
        (o = inr (ResStream resp) \/ exists e, o = inl e)) \/
       exists wwwAuthenticate tokenUrl r,
         status resp = 401 /\
         (exists h, resp_headers resp !! "www-authenticate" = Some h /\
                    parseAuthenticate h = inr wwwAuthenticate) /\
         url_parse (realm wwwAuthenticate) = Some tokenUrl /\
         tr = [(discovery newUrl, Some resp);
               ({| fr_url :=
                     href (token_address wwwAuthenticate
                             (rewriteScope isDockerHub
                                (query_get (search url) "scope")) tokenUrl);
                   fr_method := "GET";
                   fr_headers := authorization_headers authorization;
                   fr_redirect := None; fr_body := None |}, r)] /\
         match r with
         | None => exists s, o = inl (FetchFailed s)
         | Some tokenResp => o = inr (ResStream tokenResp)
         end).
Proof.
  unfold auth, new_URL, try_option.
  destruct (url_parse _) as [newUrl|] eqn:E; cbn; intros H;
    [|left; exec_inv H; eauto].
  right. exists newUrl. split; [done|].
  exec_inv H; [|left; eauto]. right. exists r. cbn in H4.
  destruct (Nat.eqb (status r) 401) eqn:Hs; cbn in H4;
    [|exec_inv H4; left; eauto].
  apply Nat.eqb_eq in Hs.
  destruct (resp_headers r !! "www-authenticate") as [h|] eqn:Hh;
    [|exec_inv H4; left; eauto].
  destruct (Str.nonempty h) eqn:Hne; cbn in H4; [|exec_inv H4; left; eauto].
  unfold try_sum in H4.
  destruct (parseAuthenticate h) as [e|ch] eqn:Hp; cbn in H4;
    [exec_inv H4; left; eauto|].
  unfold fetchToken, new_URL, try_option in H4.
  destruct (url_parse (realm ch)) as [tokenUrl|] eqn:Hr; cbn in H4;
    [|exec_inv H4; left; eauto].
  right. exists ch, tokenUrl.
  exec_inv H4.
  - exists (Some r0).
    match goal with H : exec _ _ _ |- _ => cbn in H; exec_inv H end.
    eauto 10.
  - exists None. eauto 10.
Qed.

End Auth.

(** ** The Unauthorized Response *)

Lemma responseUnauthorized_eq cfg url :
  responseUnauthorized cfg url =
    ResJson 401
      {[ "WWW-Authenticate" :=
           unauthorized_challenge (if is_debug cfg then "http" else "https")
             (if is_debug cfg then host url else hostname url)
             "docker-repository-proxy" ]}
      (JsonField "message" (JsonString "UNAUTHORIZED")).
Proof. unfold responseUnauthorized. by destruct (is_debug cfg). Qed.

Lemma host_without_port url : port url = "" -> host url = hostname url.
Proof. unfold host. by intros ->. Qed.

Lemma host_shape url :
  host url =
    hostname url +:+ (if String.eqb (port url) "" then "" else ":" +:+ port url).
Proof.
  unfold host. destruct (port url) as [|c p]; [|reflexivity].
  simpl. induction (hostname url) as [|a h IH]; [done|].
  change (String a h +:+ "") with (String a (h +:+ "")). by rewrite <- IH.
Qed.

(** C2, as amended: the helper always answers 401 with the JSON body
    [message: UNAUTHORIZED] and a Bearer challenge whose realm is the
    scheme, the proxy host and [/v2/auth]; the scheme is http in debug mode
    and https otherwise; the proxy host is the host of the client URL with
    its port in debug mode and the host name without the port otherwise;
    the service is docker-repository-proxy in [src/app.js] and
    cloudflare-docker-proxy in the older server file.  When the client URL
    has no port, this is the response of the specification. *)
Theorem C2_unauthorized_response :
  forall cfg url,
    let scheme := if is_debug cfg then "http" else "https" in
    let proxy_host := if is_debug cfg then host url else hostname url in
    responseUnauthorized cfg url =
      ResJson 401
        {[ "WWW-Authenticate" :=
             unauthorized_challenge scheme proxy_host "docker-repository-proxy" ]}
        (JsonField "message" (JsonString "UNAUTHORIZED")) /\
    Legacy.responseUnauthorized cfg url =
      ResJson 401
        {[ "WWW-Authenticate" :=
             unauthorized_challenge scheme proxy_host "cloudflare-docker-proxy" ]}
        (JsonField "message" (JsonString "UNAUTHORIZED")) /\
    (port url = "" ->
     responseUnauthorized cfg url = SpecWords.unauthorized cfg (host url)).
Proof.
  intros cfg url scheme proxy_host. split; [apply responseUnauthorized_eq|].
  split.
  - unfold Legacy.responseUnauthorized, scheme, proxy_host.
    by destruct (is_debug cfg).
  - intros Hp. rewrite responseUnauthorized_eq, (host_without_port _ Hp).
    unfold SpecWords.unauthorized. by destruct (is_debug cfg).
Qed.

Lemma C2_unauthorized_response_witness :
  responseUnauthorized Sample.production (Sample.url_docker "/v2/" "") =
    SpecWords.unauthorized Sample.production "docker.api.example.com".
Proof.
  exact (proj2 (proj2 (C2_unauthorized_response Sample.production
                         (Sample.url_docker "/v2/" ""))) eq_refl).
Defined.

(** C2, as stated, fails whichever of the two hosts of the URL class the
    proxy host is taken to be: with the proxy reached on port 8443, the
    production challenge leaves the port out, and the debug challenge has
    it. *)
Lemma C2_counterexample :
  @url_parse_base SimpleUrl.lib "/v2/" "http://docker.api.example.com:8443"
    = Some Sample.url_8443 /\
  responseUnauthorized Sample.production Sample.url_8443
    <> SpecWords.unauthorized Sample.production (host Sample.url_8443) /\
  responseUnauthorized Sample.debug Sample.url_8443
    <> SpecWords.unauthorized Sample.debug (hostname Sample.url_8443).
Proof.
  split; [reflexivity|].
  split; intros H;
    apply (f_equal (fun r => header_of r "WWW-Authenticate")) in H;
    vm_compute in H; discriminate H.
Qed.

(** The older server file names another service than the specification. *)
Example legacy_service_differs :
  Legacy.responseUnauthorized Sample.production (Sample.url_docker "/v2/" "")
    <> SpecWords.unauthorized Sample.production "docker.api.example.com".
Proof.
  intros H. apply (f_equal (fun r => header_of r "WWW-Authenticate")) in H.
  vm_compute in H. discriminate H.
Qed.

(** ** Upstream 401 *)

Section Upstream401.

Context {lib : UrlLib}.
Variable cfg : Config.

(** Outside [/v2/auth] the handler makes at most one request, and a 401
    in answer to it is replaced by the helper's response. *)
Lemma exec_handler_401 req url tr o q resp :
  JS.truthy (upstream_of cfg req) = true ->
  url_parse_base (req_url req) (base_of req) = Some url ->
  pathname url <> "/v2/auth" ->
  exec (handler cfg req) tr o ->
  (q, Some resp) ∈ tr -> status resp = 401 ->
  o = inr (responseUnauthorized cfg url).
Proof.
  intros Ht Hu Hp He Hin Hs. rewrite (handler_dispatch _ _ _ Ht Hu) in He.
  destruct (String.eqb (pathname url) "/v2/").
  - apply exec_probe in He as [[-> _]|(newUrl & r & _ & -> & Ho)].
    + by apply elem_of_nil in Hin.
    + apply list_elem_of_singleton in Hin. injection Hin as _ <-.
      by rewrite Ho, Hs.
  - destruct (String.eqb_spec (pathname url) "/v2/auth") as [|_]; [done|].
    destruct (normalizePath _ url).
    + exec_inv He. by apply elem_of_nil in Hin.
    + apply exec_forward in He as [[-> _]|(newUrl & up & r & _ & _ & -> & Ho)].
      * by apply elem_of_nil in Hin.
      * apply list_elem_of_singleton in Hin. injection Hin as _ <-.
        by rewrite Ho, Hs.
Qed.

(** In [/v2/auth] a response the handler sends is the last upstream
    response, relayed as it came. *)
Lemma exec_handler_auth req url tr res :
  JS.truthy (upstream_of cfg req) = true ->
  url_parse_base (req_url req) (base_of req) = Some url ->
  pathname url = "/v2/auth" ->
  exec (handler cfg req) tr (inr res) ->
  exists q resp, last tr = Some (q, Some resp) /\ res = ResStream resp.
Proof.
  intros Ht Hu Hp He. rewrite (handler_dispatch _ _ _ Ht Hu), Hp in He.
  simpl in He.
  apply exec_auth in He as [[_ [s Hs]]|(newUrl & _ & He)]; [done|].
  destruct He as [[_ [s Hs]]|(resp & He)]; [done|].
  destruct He as [[-> [Ho|[e He]]]|(ch & tokenUrl & r & _ & _ & _ & -> & Ho)].
  - injection Ho as ->. eauto.
  - done.
  - destruct r as [tokenResp|]; [|by destruct Ho].
    injection Ho as ->. eauto.
Qed.

End Upstream401.

(** C1, as amended: take a request that resolved to an upstream and whose
    client URL, built from the request target and the Host header, has
    the host of the Host header (a target that is a path on the proxy).
    A 401 from the upstream at the probe stage or at the forward stage is
    answered with a 401 whose challenge names the proxy's own [/v2/auth]
    as realm: the Host header under http in debug mode, the Host header
    without its port under https otherwise, with nothing of the upstream's
    response in it.  At the auth stage a 401 from the upstream is not
    answered that way: whatever the handler sends there is its last
    upstream response, relayed unchanged (the discovery response, or the
    token realm's response once the challenge was parsed). *)
Theorem C1_upstream_401 :
  forall (lib : UrlLib) cfg req own url tr o,
    JS.truthy (upstream_of cfg req) = true ->
    req_headers req !! "host" = Some own ->
    url_parse_base (req_url req) (base_of req) = Some url ->
    host url = own ->
    exec (handler cfg req) tr o ->
    (pathname url <> "/v2/auth" ->
     forall q resp, (q, Some resp) ∈ tr -> status resp = 401 ->
       o = inr (ResJson 401
                  {[ "WWW-Authenticate" :=
                       unauthorized_challenge
                         (if is_debug cfg then "http" else "https")
                         (if is_debug cfg then own else hostname url)
                         "docker-repository-proxy" ]}
                  (JsonField "message" (JsonString "UNAUTHORIZED"))) /\
       own = hostname url +:+
               (if String.eqb (port url) "" then "" else ":" +:+ port url)) /\
    (pathname url = "/v2/auth" ->
     forall res, o = inr res ->
       exists q resp, last tr = Some (q, Some resp) /\ res = ResStream resp).
Proof.
  intros lib cfg req own url tr o Ht Hh Hu Ho He. split.
  - intros Hp q resp Hin Hs. split.
    + rewrite <- Ho, <- responseUnauthorized_eq.
      eapply exec_handler_401; eauto.
    + rewrite <- Ho. apply host_shape.
  - intros Hp res ->. eapply exec_handler_auth; eauto.
Qed.

Lemma C1_upstream_401_witness :
  let probe_req := Sample.GET "docker.api.example.com" "/v2/" ∅ in
  let auth_req :=
    Sample.GET "docker.api.example.com" "/v2/auth?scope=repository:busybox:pull" ∅ in
  let local_req :=
    {| req_hostname := Some "localhost"; req_method := "GET";
       req_url := "/v2/coreos/etcd/manifests/latest";
       req_headers := {[ "host" := "localhost:8080" ]}; req_body := "" |} in
  let local_url :=
    {| protocol := "http:"; hostname := "localhost"; port := "8080";
       pathname := "/v2/coreos/etcd/manifests/latest"; search := "" |} in
  let w := Sample.hub_world Sample.token_200 in
  (run w [] (handler (lib := SimpleUrl.lib) Sample.production probe_req)
     = inr (ResJson 401
              {[ "WWW-Authenticate" :=
                   unauthorized_challenge "https" "docker.api.example.com"
                     "docker-repository-proxy" ]}
              (JsonField "message" (JsonString "UNAUTHORIZED"))) /\
   "docker.api.example.com" = "docker.api.example.com" +:+ "") /\
  (run w [] (handler (lib := SimpleUrl.lib) Sample.debug local_req)
     = inr (ResJson 401
              {[ "WWW-Authenticate" :=
                   unauthorized_challenge "http" "localhost:8080"
                     "docker-repository-proxy" ]}
              (JsonField "message" (JsonString "UNAUTHORIZED"))) /\
   "localhost:8080" = "localhost" +:+ ":" +:+ "8080") /\
  exists q resp,
    last (trace w [] (handler (lib := SimpleUrl.lib) Sample.production auth_req))
      = Some (q, Some resp) /\
    Sample.token_200 = resp.
Proof.
  intros probe_req auth_req local_req local_url w. split; [|split].
  - refine (proj1 (C1_upstream_401 SimpleUrl.lib Sample.production probe_req
                     "docker.api.example.com"
                     (Sample.url_docker "/v2/" "") _ _ eq_refl eq_refl eq_refl
                     eq_refl (run_exec w _ [])) _ _ Sample.hub_401 _ eq_refl).
    + discriminate.
    + vm_compute. apply list_elem_of_singleton. reflexivity.
  - refine (proj1 (C1_upstream_401 SimpleUrl.lib Sample.debug local_req
                     "localhost:8080" local_url _ _ eq_refl eq_refl eq_refl
                     eq_refl (run_exec w _ [])) _ _ Sample.hub_401 _ eq_refl).
    + discriminate.
    + vm_compute. apply list_elem_of_singleton. reflexivity.
  - destruct (proj2 (C1_upstream_401 SimpleUrl.lib Sample.production auth_req
                     "docker.api.example.com"
                     (Sample.url_docker "/v2/auth" "?scope=repository:busybox:pull")
                     _ _ eq_refl eq_refl eq_refl eq_refl (run_exec w _ []))
                eq_refl (ResStream Sample.token_200) eq_refl)
      as (q & resp & Hl & Hr).
    exists q, resp. split; [exact Hl|]. injection Hr as Hr. exact Hr.
Defined.

(** C1, as stated, fails at the auth stage: Docker Hub answers the
    discovery request of [/v2/auth] with a 401, the token realm answers
    with a 401 of its own, and the client receives that response with the
    upstream's challenge, not the proxy's. *)
Lemma C1_counterexample :
  let req :=
    Sample.GET "docker.api.example.com" "/v2/auth?scope=repository:busybox:pull" ∅ in
  let url := Sample.url_docker "/v2/auth" "?scope=repository:busybox:pull" in
  let w := Sample.hub_world Sample.hub_401 in
  @url_parse_base SimpleUrl.lib (req_url req) (base_of req) = Some url /\
  (snd <$> trace w [] (handler (lib := SimpleUrl.lib) Sample.production req))
    = [Some Sample.hub_401; Some Sample.hub_401] /\
  status Sample.hub_401 = 401 /\
  serve (lib := SimpleUrl.lib) Sample.production w req = ResStream Sample.hub_401 /\
  header_of (serve (lib := SimpleUrl.lib) Sample.production w req) "www-authenticate"
    = Some Sample.hub_challenge /\
  serve (lib := SimpleUrl.lib) Sample.production w req
    <> responseUnauthorized Sample.production url.
Proof.
  intros req url w.
  assert (E : serve (lib := SimpleUrl.lib) Sample.production w req
              = ResStream Sample.hub_401) by (vm_compute; reflexivity).
  split; [reflexivity|]. split; [vm_compute; reflexivity|].
  split; [reflexivity|]. split; [exact E|]. rewrite E.
  split; [vm_compute; reflexivity|]. discriminate.
Qed.

(** A request target that names a host of its own is read by the URL
    class as scheme-relative: the client URL, and with it the realm of the
    answer, has that host and not the one of the Host header.  The
    amended C1 does not speak of such targets. *)
Example target_naming_a_host :
  let req := Sample.GET "docker.api.example.com" "//quay.io/v2/" ∅ in
  let w := Sample.hub_world Sample.token_200 in
  req_headers req !! "host" = Some "docker.api.example.com" /\
  serve (lib := SimpleUrl.lib) Sample.production w req
    = ResJson 401
        {[ "WWW-Authenticate" :=
             unauthorized_challenge "https" "quay.io" "docker-repository-proxy" ]}
        (JsonField "message" (JsonString "UNAUTHORIZED")).
Proof. split; vm_compute; reflexivity. Qed.

(** ** Unresolved hosts *)

(** A host that is neither in the table nor a name every object inherits
    gets the 404 with the whole table, in production mode. *)
Lemma unresolved_host_404 {lib : UrlLib} cfg w req h :
  req_hostname req = Some h ->
  routes cfg !! h = None -> h ∉ JS.object_prototype_names ->
  is_debug cfg = false ->
  serve cfg w req = ResJson 404 ∅ (JsonField "routes" (JsonMap (routes cfg))).
Proof.
  intros Hh Hr Hn Hd. unfold serve. rewrite handler_unresolved; [done|].
  unfold upstream_of. rewrite Hh. simpl.
  by rewrite (routeByHosts_absent _ _ Hr Hn), Hd.
Qed.

Example scenario_D w :
  serve (lib := SimpleUrl.lib) Sample.production w
        (Sample.GET "unknown.api.example.com" "/v2/" ∅)
    = ResJson 404 ∅ (JsonField "routes" (JsonMap (routes Sample.production))).
Proof. reflexivity. Qed.

(** No address can be built from an inherited member. *)
Lemma no_url_from_constructor tail :
  SimpleUrl.parse (JS.to_string (JInherited "constructor") +:+ tail) = None.
Proof. reflexivity. Qed.

(** C7, at the failing input: in production mode a request for the host
    [constructor], which is not in the route table, is not answered with
    the 404 and the table; the inherited member passes for an upstream, no
    URL can be built from it, and the client gets the generic 500,
    whatever the path and the method. *)
Theorem C7_inherited_host_is_500 :
  forall cfg w req,
    is_debug cfg = false ->
    req_hostname req = Some "constructor" ->
    routes cfg !! "constructor" = None /\
    serve (lib := SimpleUrl.lib) cfg w req = ResSend 500 "Internal Server Error".
Proof.
  intros cfg w req Hd Hh.
  pose proof (routes_no_inherited cfg _ constructor_inherited) as Hr.
  split; [done|].
  assert (Hup : upstream_of cfg req = JInherited "constructor").
  { unfold upstream_of. rewrite Hh.
    apply routeByHosts_inherited; [done|apply constructor_inherited]. }
  unfold serve.
  destruct (@url_parse_base SimpleUrl.lib (req_url req) (base_of req))
    as [url|] eqn:Hu.
  2:{ rewrite handler_bad_url; [done|by rewrite Hup|done]. }
  rewrite (handler_dispatch cfg req url); [|by rewrite Hup|done].
  rewrite Hup.
  destruct (String.eqb (pathname url) "/v2/"); [reflexivity|].
  destruct (String.eqb (pathname url) "/v2/auth"); [reflexivity|].
  rewrite bool_decide_eq_false_2 by discriminate.
  unfold normalizePath, forward, new_URL. simpl url_parse.
  by rewrite no_url_from_constructor.
Qed.

Lemma C7_inherited_host_is_500_witness :
  serve (lib := SimpleUrl.lib) Sample.production
        (Sample.constant_world Sample.token_200)
        (Sample.GET "constructor" "/v2/" ∅)
    = ResSend 500 "Internal Server Error".
Proof.
  exact (proj2 (C7_inherited_host_is_500 Sample.production
                  (Sample.constant_world Sample.token_200)
                  (Sample.GET "constructor" "/v2/" ∅) eq_refl eq_refl)).
Defined.

(** ** The headers of the forwarded request *)

Lemma forwardHeaders_lookup client upstream_host name :
  forwardHeaders client upstream_host !! name =
    if decide (name = "accept-encoding") then None
    else if decide (name = "host") then Some upstream_host
    else client !! name.
Proof.
  unfold forwardHeaders.
  destruct (decide (name = "accept-encoding")) as [->|Ha].
  - apply lookup_delete_eq.
  - rewrite lookup_delete_ne by done.
    destruct (decide (name = "host")) as [->|Hh].
    + apply lookup_insert_eq.
    + by rewrite lookup_insert_ne.
Qed.

(** C8: every request the generic forwarder sends upstream has the
    client's headers, except that [host] is the host of the upstream URL
    and [accept-encoding] is absent; every other header name has the
    client's value, or none when the client sent none. *)
Theorem C8_forward_headers :
  forall (lib : UrlLib) cfg upstream req url tr o q r,
    exec (forward cfg upstream req url) tr o ->
    (q, r) ∈ tr ->
    exists upstreamUrl,
      url_parse (JS.to_string upstream) = Some upstreamUrl /\
      fr_headers q !! "host" = Some (host upstreamUrl) /\
      fr_headers q !! "accept-encoding" = None /\
      forall name, name <> "host" -> name <> "accept-encoding" ->
        fr_headers q !! name = req_headers req !! name.
Proof.
  intros lib cfg upstream req url tr o q r He Hin.
  apply exec_forward in He as [[-> _]|(newUrl & up & r' & _ & Hup & -> & _)].
  { by apply elem_of_nil in Hin. }
  apply list_elem_of_singleton in Hin. injection Hin as -> _.
  exists up. split; [done|]. simpl. rewrite !forwardHeaders_lookup.
  split; [done|]. split; [done|].
  intros name Hh Ha. rewrite forwardHeaders_lookup.
  by rewrite decide_False, decide_False.
Qed.

Lemma C8_forward_headers_witness :
  let req :=
    Sample.GET "quay.api.example.com" "/v2/coreos/etcd/manifests/latest"
      {[ "accept-encoding" := "gzip"; "accept" := "*/*" ]} in
  let q :=
    {| fr_url := "https://quay.io/v2/coreos/etcd/manifests/latest";
       fr_method := "GET";
       fr_headers := forwardHeaders (req_headers req) "quay.io";
       fr_redirect := Some "follow"; fr_body := None |} in
  first_request
    (forward (lib := SimpleUrl.lib) Sample.production (JStr "https://quay.io") req
       (Sample.url_docker "/v2/coreos/etcd/manifests/latest" "")) = Some q /\
  exists upstreamUrl,
    SimpleUrl.parse "https://quay.io" = Some upstreamUrl /\
    fr_headers q !! "host" = Some (host upstreamUrl) /\
    fr_headers q !! "accept-encoding" = None /\
    fr_headers q !! "accept" = Some "*/*".
Proof.
  intros req q. split; [reflexivity|].
  destruct (C8_forward_headers SimpleUrl.lib Sample.production
              (JStr "https://quay.io") req
              (Sample.url_docker "/v2/coreos/etcd/manifests/latest" "")
              _ _ q (Some Sample.token_200)
              (run_exec (Sample.constant_world Sample.token_200) _ []))
    as (up & Hup & Hh & Ha & Hrest).
  { vm_compute. apply list_elem_of_singleton. reflexivity. }
  exists up. split; [exact Hup|].
  split; [exact Hh|]. split; [exact Ha|].
  rewrite (Hrest "accept") by discriminate. reflexivity.
Defined.

(** ** The library redirect *)

Lemma href_set_pathname url p :
  href (set_pathname url p) = protocol url +:+ "//" +:+ host url +:+ p +:+ search url.
Proof. reflexivity. Qed.

Section LibraryRedirect.

Context {lib : UrlLib}.
Variable cfg : Config.

Lemma dockerHub_truthy req :
  upstream_of cfg req = JStr dockerHub -> JS.truthy (upstream_of cfg req) = true.
Proof. by intros ->. Qed.

(** Five segments against Docker Hub: the redirect, before any request
    goes upstream. *)
Lemma handler_five_segments req url :
  upstream_of cfg req = JStr dockerHub ->
  url_parse_base (req_url req) (base_of req) = Some url ->
  length (Str.split Str.slash (pathname url)) = 5 ->
  handler cfg req =
    Ret (ResRedirect 301
           (href (set_pathname url
                    (Str.join "/"
                       (Str.splice_insert 2 "library"
                          (Str.split Str.slash (pathname url))))))).
Proof.
  intros Hup Hu Hlen.
  rewrite (handler_dispatch _ _ _ (dockerHub_truthy _ Hup) Hu), Hup.
  destruct (String.eqb_spec (pathname url) "/v2/") as [E|_].
  { rewrite E in Hlen. discriminate Hlen. }
  destruct (String.eqb_spec (pathname url) "/v2/auth") as [E|_].
  { rewrite E in Hlen. discriminate Hlen. }
  unfold normalizePath. rewrite bool_decide_eq_true_2 by done.
  by rewrite Hlen.
Qed.

(** Any other number of segments: the request goes to the forwarder
    with its path as it is. *)
Lemma handler_other_segments req url :
  JS.truthy (upstream_of cfg req) = true ->
  url_parse_base (req_url req) (base_of req) = Some url ->
  pathname url <> "/v2/" -> pathname url <> "/v2/auth" ->
  length (Str.split Str.slash (pathname url)) <> 5 ->
  handler cfg req = forward cfg (upstream_of cfg req) req url.
Proof.
  intros Ht Hu H1 H2 Hlen. rewrite (handler_dispatch _ _ _ Ht Hu).
  destruct (String.eqb_spec (pathname url) "/v2/") as [|_]; [done|].
  destruct (String.eqb_spec (pathname url) "/v2/auth") as [|_]; [done|].
  unfold normalizePath. destruct (bool_decide _); [|done].
  by rewrite (proj2 (Nat.eqb_neq _ _) Hlen).
Qed.

(** The only redirect the handler sends is the one for five segments
    against Docker Hub. *)
Lemma handler_redirect_inv req url tr code location :
  url_parse_base (req_url req) (base_of req) = Some url ->
  exec (handler cfg req) tr (inr (ResRedirect code location)) ->
  upstream_of cfg req = JStr dockerHub /\
  length (Str.split Str.slash (pathname url)) = 5.
Proof.
  intros Hu He.
  destruct (JS.truthy (upstream_of cfg req)) eqn:Ht.
  2:{ rewrite (handler_unresolved _ _ Ht) in He. by exec_inv He. }
  rewrite (handler_dispatch _ _ _ Ht Hu) in He.
  destruct (String.eqb (pathname url) "/v2/").
  { apply exec_probe in He as [[_ [s Hs]]|(newUrl & r & _ & _ & Ho)]; [done|].
    destruct r as [resp|]; [|by destruct Ho].
    rewrite responseUnauthorized_eq in Ho. by destruct (Nat.eqb _ _). }
  destruct (String.eqb (pathname url) "/v2/auth").
  { apply exec_auth in He as [[_ [s Hs]]|(newUrl & _ & He)]; [done|].
    destruct He as [[_ [s Hs]]|(resp & He)]; [done|].
    destruct He as [[_ [Ho|[e He]]]|(ch & tokenUrl & r & _ & _ & _ & _ & Ho)];
      [done..|].
    destruct r as [tokenResp|]; [done|by destruct Ho]. }
  unfold normalizePath in He.
  destruct (bool_decide (upstream_of cfg req = JStr dockerHub)) eqn:Hd.
  - apply bool_decide_eq_true in Hd.
    destruct (Nat.eqb_spec (length (Str.split Str.slash (pathname url))) 5)
      as [Hlen|_]; [done|].
    apply exec_forward in He as [[_ [s Hs]]|(newUrl & up & r & _ & _ & _ & Ho)];
      [done|].
    destruct r as [resp|]; [|by destruct Ho].
    rewrite responseUnauthorized_eq in Ho. by destruct (Nat.eqb _ _).
  - apply exec_forward in He as [[_ [s Hs]]|(newUrl & up & r & _ & _ & _ & Ho)];
      [done|].
    destruct r as [resp|]; [|by destruct Ho].
    rewrite responseUnauthorized_eq in Ho. by destruct (Nat.eqb _ _).
Qed.

End LibraryRedirect.

Lemma split_v2_name_kind_ref name kind ref :
  Str.includes Str.slash name = false ->
  Str.includes Str.slash kind = false ->
  Str.includes Str.slash ref = false ->
  Str.split Str.slash ("/v2/" +:+ name +:+ "/" +:+ kind +:+ "/" +:+ ref)
    = [""; "v2"; name; kind; ref].
Proof.
  intros Hn Hk Hr.
  change ("/v2/" +:+ name +:+ "/" +:+ kind +:+ "/" +:+ ref)
    with ("" +:+ String Str.slash
            ("v2" +:+ String Str.slash
               (name +:+ String Str.slash (kind +:+ String Str.slash ref)))).
  by rewrite !split_app, (split_plain _ _ Hr).
Qed.

(** C3: against Docker Hub, a path [/v2/name/kind/ref] whose three last
    segments hold no slash is answered with a 301 whose target is the
    client URL with the path [/v2/library/name/kind/ref] and the same
    query; a path with one more segment, [/v2/ns/name/kind/ref], is not
    redirected and goes to the forwarder as it is; and with any other
    upstream no response of the handler is a redirect. *)
Theorem C3_path_normalization :
  forall (lib : UrlLib) cfg req url,
    url_parse_base (req_url req) (base_of req) = Some url ->
    (upstream_of cfg req = JStr dockerHub ->
     (forall name kind ref,
        Str.includes Str.slash name = false ->
        Str.includes Str.slash kind = false ->
        Str.includes Str.slash ref = false ->
        pathname url = "/v2/" +:+ name +:+ "/" +:+ kind +:+ "/" +:+ ref ->
        handler cfg req =
          Ret (ResRedirect 301
                 (protocol url +:+ "//" +:+ host url
                    +:+ ("/v2/library/" +:+ name +:+ "/" +:+ kind +:+ "/" +:+ ref)
                    +:+ search url))) /\
     (forall ns name kind ref,
        Str.includes Str.slash ns = false ->
        Str.includes Str.slash name = false ->
        Str.includes Str.slash kind = false ->
        Str.includes Str.slash ref = false ->
        pathname url
          = "/v2/" +:+ ns +:+ "/" +:+ name +:+ "/" +:+ kind +:+ "/" +:+ ref ->
        normalizePath true url = None /\
        handler cfg req = forward cfg (JStr dockerHub) req url)) /\
    (upstream_of cfg req <> JStr dockerHub ->
     forall tr res code location,
       exec (handler cfg req) tr (inr res) -> res <> ResRedirect code location).
Proof.
  intros lib cfg req url Hu. split; [intros Hup; split|].
  - intros name kind ref Hn Hk Hr Hp.
    rewrite (handler_five_segments _ _ _ Hup Hu);
      rewrite Hp, (split_v2_name_kind_ref _ _ _ Hn Hk Hr); reflexivity.
  - intros ns name kind ref Hs Hn Hk Hr Hp.
    assert (E : Str.split Str.slash (pathname url) = [""; "v2"; ns; name; kind; ref]).
    { rewrite Hp.
      change ("/v2/" +:+ ns +:+ "/" +:+ name +:+ "/" +:+ kind +:+ "/" +:+ ref)
        with ("" +:+ String Str.slash
                ("v2" +:+ String Str.slash
                   (ns +:+ String Str.slash
                      (name +:+ String Str.slash (kind +:+ String Str.slash ref))))).
      by rewrite !split_app, (split_plain _ _ Hr). }
    split.
    + unfold normalizePath. by rewrite E.
    + rewrite <- Hup. apply handler_other_segments; auto.
      * by apply dockerHub_truthy.
      * intros E'. rewrite E' in E. discriminate E.
      * intros E'. rewrite E' in E. discriminate E.
      * by rewrite E.
  - intros Hup tr res code location He ->.
    by destruct (handler_redirect_inv _ _ _ _ _ _ Hu He).
Qed.

Lemma C3_path_normalization_witness :
  let short := Sample.GET "docker.api.example.com" "/v2/busybox/manifests/latest?n=5" ∅ in
  let long := Sample.GET "docker.api.example.com" "/v2/library/busybox/manifests/latest" ∅ in
  let other := Sample.GET "quay.api.example.com" "/v2/busybox/manifests/latest" ∅ in
  handler (lib := SimpleUrl.lib) Sample.production short
    = Ret (ResRedirect 301
             "http://docker.api.example.com/v2/library/busybox/manifests/latest?n=5") /\
  handler (lib := SimpleUrl.lib) Sample.production long
    = forward (lib := SimpleUrl.lib) Sample.production (JStr dockerHub) long
        (Sample.url_docker "/v2/library/busybox/manifests/latest" "") /\
  run (Sample.constant_world Sample.token_200) []
      (handler (lib := SimpleUrl.lib) Sample.production other)
    <> inr (ResRedirect 301
              "http://quay.api.example.com/v2/library/busybox/manifests/latest").
Proof.
  intros short long other. split; [|split].
  - exact (proj1 (proj1 (C3_path_normalization SimpleUrl.lib Sample.production short
                           (Sample.url_docker "/v2/busybox/manifests/latest" "?n=5")
                           eq_refl) eq_refl)
             "busybox" "manifests" "latest" eq_refl eq_refl eq_refl eq_refl).
  - exact (proj2 (proj2 (proj1 (C3_path_normalization SimpleUrl.lib Sample.production
                                  long
                                  (Sample.url_docker
                                     "/v2/library/busybox/manifests/latest" "")
                                  eq_refl) eq_refl)
                    "library" "busybox" "manifests" "latest"
                    eq_refl eq_refl eq_refl eq_refl eq_refl)).
  - intros Hrun.
    refine (proj2 (C3_path_normalization SimpleUrl.lib Sample.production other
                     (Sample.url_at "quay.api.example.com"
                        "/v2/busybox/manifests/latest" "")
                     eq_refl) _
              (trace (Sample.constant_world Sample.token_200) []
                 (handler Sample.production other))
              (ResRedirect 301
                 "http://quay.api.example.com/v2/library/busybox/manifests/latest")
              _ _ _ eq_refl).
    + vm_compute. discriminate.
    + rewrite <- Hrun. apply run_exec.
Defined.

(** C9: against Docker Hub the redirect is issued for every path that
    splits into five segments, whatever the segments are: the target is
    the client URL with [library] inserted as third segment.  A path
    [/a/b/c/d] is redirected to [/a/library/b/c/d].  The segment count is
    also all there is to it: a redirect from the handler always answers a
    path of five segments. *)
Theorem C9_redirect_counts_segments_only :
  forall (lib : UrlLib) cfg req url,
    upstream_of cfg req = JStr dockerHub ->
    url_parse_base (req_url req) (base_of req) = Some url ->
    (length (Str.split Str.slash (pathname url)) = 5 ->
     handler cfg req =
       Ret (ResRedirect 301
              (href (set_pathname url
                       (Str.join "/"
                          (Str.splice_insert 2 "library"
                             (Str.split Str.slash (pathname url)))))))) /\
    (forall tr code location,
       exec (handler cfg req) tr (inr (ResRedirect code location)) ->
       length (Str.split Str.slash (pathname url)) = 5).
Proof.
  intros lib cfg req url Hup Hu. split.
  - by apply handler_five_segments.
  - intros tr code location He.
    by destruct (handler_redirect_inv _ _ _ _ _ _ Hu He).
Qed.

Lemma C9_redirect_counts_segments_only_witness :
  let req := Sample.GET "docker.api.example.com" "/a/b/c/d" ∅ in
  handler (lib := SimpleUrl.lib) Sample.production req
    = Ret (ResRedirect 301 "http://docker.api.example.com/a/library/b/c/d") /\
  length (Str.split Str.slash "/a/b/c/d") = 5.
Proof.
  intros req.
  destruct (C9_redirect_counts_segments_only SimpleUrl.lib Sample.production req
              (Sample.url_docker "/a/b/c/d" "") eq_refl eq_refl) as [H5 Hinv].
  split; [exact (H5 eq_refl)|].
  exact (Hinv _ 301 "http://docker.api.example.com/a/library/b/c/d"
           (run_exec (Sample.constant_world Sample.token_200) _ [])).
Defined.

(** ** The scope completion *)

Lemma split_triple t n a :
  Str.includes Str.colon t = false ->
  Str.includes Str.colon n = false ->
  Str.includes Str.colon a = false ->
  Str.split Str.colon (t +:+ ":" +:+ n +:+ ":" +:+ a) = [t; n; a].
Proof.
  intros Ht Hn Ha.
  change (t +:+ ":" +:+ n +:+ ":" +:+ a)
    with (t +:+ String Str.colon (n +:+ String Str.colon a)).
  by rewrite !split_app, (split_plain _ _ Ha).
Qed.

Lemma triple_nonempty t n a :
  Str.nonempty (t +:+ ":" +:+ n +:+ ":" +:+ a) = true.
Proof. by destruct t. Qed.

Lemma rewriteScope_not_hub scope : rewriteScope false scope = scope.
Proof.
  destruct scope as [s|]; [|done]. unfold rewriteScope.
  by rewrite andb_false_r.
Qed.

(** C4: with Docker Hub as upstream, a scope [type:name:actions] whose
    name holds no slash becomes [type:library/name:actions], and one whose
    name holds a slash stays as it is; with any other upstream every scope
    stays as it is; and the scope the token exchange sends to the realm is
    the client's [scope] parameter after this completion. *)
Theorem C4_scope_rewriting :
  (forall t n a,
     Str.includes Str.colon t = false ->
     Str.includes Str.colon n = false ->
     Str.includes Str.colon a = false ->
     (Str.includes Str.slash n = false ->
      rewriteScope true (Some (t +:+ ":" +:+ n +:+ ":" +:+ a))
        = Some (t +:+ ":library/" +:+ n +:+ ":" +:+ a)) /\
     (Str.includes Str.slash n = true ->
      rewriteScope true (Some (t +:+ ":" +:+ n +:+ ":" +:+ a))
        = Some (t +:+ ":" +:+ n +:+ ":" +:+ a))) /\
  (forall scope, rewriteScope false scope = scope) /\
  (forall (lib : UrlLib) cfg req url tr o q r,
     JS.truthy (upstream_of cfg req) = true ->
     url_parse_base (req_url req) (base_of req) = Some url ->
     pathname url = "/v2/auth" ->
     exec (handler cfg req) tr o ->
     tr !! 1 = Some (q, r) ->
     exists wwwAuthenticate tokenUrl,
       url_parse (realm wwwAuthenticate) = Some tokenUrl /\
       fr_url q =
         href (token_address wwwAuthenticate
                 (rewriteScope (bool_decide (upstream_of cfg req = JStr dockerHub))
                    (query_get (search url) "scope"))
                 tokenUrl)).
Proof.
  split; [|split].
  - intros t n a Ht Hn Ha. unfold rewriteScope.
    rewrite triple_nonempty, (split_triple _ _ _ Ht Hn Ha). simpl.
    split; intros ->; reflexivity.
  - apply rewriteScope_not_hub.
  - intros lib cfg req url tr o q r Ht Hu Hp He Hq.
    rewrite (handler_dispatch _ _ _ Ht Hu), Hp in He. simpl in He.
    apply exec_auth in He as [[-> _]|(newUrl & _ & He)]; [done|].
    destruct He as [[-> _]|(resp & He)]; [done|].
    destruct He as [[-> _]|(ch & tokenUrl & r' & _ & _ & Hr & -> & _)]; [done|].
    injection Hq as <- _. eauto.
Qed.

Lemma C4_scope_rewriting_witness :
  let req :=
    Sample.GET "docker.api.example.com" "/v2/auth?scope=repository:busybox:pull" ∅ in
  let w := Sample.hub_world Sample.token_200 in
  rewriteScope true (Some "repository:busybox:pull")
    = Some "repository:library/busybox:pull" /\
  rewriteScope true (Some "repository:library/busybox:pull")
    = Some "repository:library/busybox:pull" /\
  exists q r wwwAuthenticate tokenUrl,
    trace w [] (handler (lib := SimpleUrl.lib) Sample.production req) !! 1
      = Some (q, r) /\
    SimpleUrl.parse (realm wwwAuthenticate) = Some tokenUrl /\
    fr_url q =
      href (token_address (lib := SimpleUrl.lib) wwwAuthenticate
              (Some "repository:library/busybox:pull") tokenUrl).
Proof.
  intros req w.
  destruct C4_scope_rewriting as (Hrw & _ & Hsent).
  split; [|split].
  - exact (proj1 (Hrw "repository" "busybox" "pull" eq_refl eq_refl eq_refl) eq_refl).
  - exact (proj2 (Hrw "repository" "library/busybox" "pull" eq_refl eq_refl eq_refl)
             eq_refl).
  - destruct (trace w [] (handler (lib := SimpleUrl.lib) Sample.production req) !! 1)
      as [[q r]|] eqn:E; [|vm_compute in E; discriminate E].
    destruct (Hsent SimpleUrl.lib Sample.production req
                (Sample.url_docker "/v2/auth" "?scope=repository:busybox:pull")
                _ _ q r eq_refl eq_refl eq_refl (run_exec w _ []) E)
      as (ch & tokenUrl & Hparse & Hurl).
    exists q, r, ch, tokenUrl. split; [reflexivity|]. split; [exact Hparse|].
    exact Hurl.
Defined.

Example scenario_B :
  fr_url <$> first_request
    (fetchToken (lib := SimpleUrl.lib)
       {| realm := "https://auth.docker.io/token"; service := "registry.docker.io" |}
       (rewriteScope true (Some "repository:busybox:pull")) None)
  = Some "https://auth.docker.io/token?service=registry.docker.io&scope=repository%3Alibrary%2Fbusybox%3Apull".
Proof. reflexivity. Qed.

(** ** Where the client's authorization goes *)

Lemma authorization_headers_lookup authorization :
  authorization_headers authorization !! "authorization"
    = match authorization with
      | Some a => if Str.nonempty a then Some a else None
      | None => None
      end.
Proof.
  destruct authorization as [a|]; simpl; [|done].
  destruct (Str.nonempty a); [apply lookup_singleton_eq | done].
Qed.

Section Authorization.

Context {lib : UrlLib}.
Variable cfg : Config.

Lemma discovery_ignores_authorization req1 req2 url :
  same_but_authorization req1 req2 ->
  JS.truthy (upstream_of cfg req1) = true ->
  url_parse_base (req_url req1) (base_of req1) = Some url ->
  pathname url = "/v2/auth" ->
  first_request (handler cfg req1) = first_request (handler cfg req2) /\
  forall q, first_request (handler cfg req1) = Some q -> fr_headers q = ∅.
Proof.
  intros (Hh & _ & Hurl & _ & Hhd) Ht Hu Hp.
  assert (Eup : upstream_of cfg req2 = upstream_of cfg req1).
  { unfold upstream_of. by rewrite Hh. }
  assert (Eb : base_of req2 = base_of req1).
  { unfold base_of. by rewrite Hhd. }
  rewrite (handler_dispatch _ _ _ Ht Hu).
  rewrite (handler_dispatch cfg req2 url); [|by rewrite Eup|by rewrite <- Hurl, Eb].
  rewrite Hp, Eup. simpl. unfold auth, new_URL, try_option.
  destruct (url_parse _) as [newUrl|]; cbn; [|done].
  split; [done|]. by intros q [= <-].
Qed.

Lemma handler_authorization req url tr o q r :
  JS.truthy (upstream_of cfg req) = true ->
  url_parse_base (req_url req) (base_of req) = Some url ->
  exec (handler cfg req) tr o ->
  (pathname url = "/v2/" -> (q, r) ∈ tr ->
   fr_headers q = authorization_headers (req_headers req !! "authorization")) /\
  (pathname url = "/v2/auth" ->
   (tr !! 0 = Some (q, r) -> fr_headers q = ∅) /\
   (tr !! 1 = Some (q, r) ->
    fr_headers q = authorization_headers (req_headers req !! "authorization"))) /\
  (pathname url <> "/v2/" -> pathname url <> "/v2/auth" -> (q, r) ∈ tr ->
   fr_headers q !! "authorization" = req_headers req !! "authorization").
Proof.
  intros Ht Hu He. rewrite (handler_dispatch _ _ _ Ht Hu) in He.
  split; [|split].
  - intros Hp Hin. rewrite Hp in He. simpl in He.
    apply exec_probe in He as [[-> _]|(newUrl & r' & _ & -> & _)].
    + by apply elem_of_nil in Hin.
    + apply list_elem_of_singleton in Hin. by injection Hin as -> _.
  - intros Hp. rewrite Hp in He. simpl in He.
    apply exec_auth in He as [[-> _]|(newUrl & _ & He)]; [done|].
    destruct He as [[-> _]|(resp & He)].
    { split; [by intros [= <- _]|done]. }
    destruct He as [[-> _]|(ch & tokenUrl & r' & _ & _ & _ & -> & _)].
    { split; [by intros [= <- _]|done]. }
    split; by intros [= <- _].
  - intros H1 H2 Hin.
    destruct (String.eqb_spec (pathname url) "/v2/") as [|_]; [done|].
    destruct (String.eqb_spec (pathname url) "/v2/auth") as [|_]; [done|].
    destruct (normalizePath _ url).
    { exec_inv He. by apply elem_of_nil in Hin. }
    apply exec_forward in He as [[-> _]|(newUrl & up & r' & _ & _ & -> & _)].
    + by apply elem_of_nil in Hin.
    + apply list_elem_of_singleton in Hin. injection Hin as -> _. simpl.
      rewrite forwardHeaders_lookup. by rewrite decide_False, decide_False.
Qed.

End Authorization.

(** C10, as amended: the discovery request that [/v2/auth] opens with has
    no headers, so two client requests that differ only in their
    Authorization header start with the same upstream request and every
    world gives them the same answer to it.  The client's Authorization
    header goes upstream with the request of the probe endpoint, with the
    request to the token realm, and, like every other client header, with
    the request of the generic forwarder. *)
Theorem C10_authorization_flow :
  forall (lib : UrlLib) cfg req url,
    JS.truthy (upstream_of cfg req) = true ->
    url_parse_base (req_url req) (base_of req) = Some url ->
    (pathname url = "/v2/auth" ->
     forall req', same_but_authorization req req' ->
       first_request (handler cfg req) = first_request (handler cfg req') /\
       (forall q, first_request (handler cfg req) = Some q -> fr_headers q = ∅) /\
       forall w : World,
         first_request (handler cfg req) ≫= w []
           = first_request (handler cfg req') ≫= w []) /\
    (forall tr o q r,
       exec (handler cfg req) tr o ->
       (pathname url = "/v2/" -> (q, r) ∈ tr ->
        fr_headers q = authorization_headers (req_headers req !! "authorization")) /\
       (pathname url = "/v2/auth" -> tr !! 1 = Some (q, r) ->
        fr_headers q = authorization_headers (req_headers req !! "authorization")) /\
       (pathname url <> "/v2/" -> pathname url <> "/v2/auth" -> (q, r) ∈ tr ->
        fr_headers q !! "authorization" = req_headers req !! "authorization")).
Proof.
  intros lib cfg req url Ht Hu. split.
  - intros Hp req' Hsame.
    destruct (discovery_ignores_authorization cfg req req' url Hsame Ht Hu Hp)
      as [Heq Hempty].
    split; [done|]. split; [done|]. intros w. by rewrite Heq.
  - intros tr o q r He.
    destruct (handler_authorization cfg req url tr o q r Ht Hu He)
      as (H1 & H2 & H3).
    split; [done|]. split; [|done]. intros Hp. by apply H2.
Qed.

Lemma C10_authorization_flow_witness :
  let basic : gmap string string := {[ "authorization" := "Basic dTpw" ]} in
  let auth_req :=
    Sample.GET "docker.api.example.com" "/v2/auth?scope=repository:busybox:pull" ∅ in
  let auth_req' :=
    Sample.GET "docker.api.example.com" "/v2/auth?scope=repository:busybox:pull" basic in
  let probe_req := Sample.GET "docker.api.example.com" "/v2/" basic in
  let pull_req :=
    Sample.GET "quay.api.example.com" "/v2/coreos/etcd/manifests/latest" basic in
  let w := Sample.hub_world Sample.token_200 in
  let sent (req : Request) (i : nat) : option FetchRequest :=
    fst <$> trace w [] (handler (lib := SimpleUrl.lib) Sample.production req) !! i in
  first_request (handler (lib := SimpleUrl.lib) Sample.production auth_req)
    = first_request (handler (lib := SimpleUrl.lib) Sample.production auth_req') /\
  fr_headers <$> sent probe_req 0 = Some basic /\
  fr_headers <$> sent auth_req' 1 = Some basic /\
  (sent pull_req 0 ≫= fun q => fr_headers q !! "authorization") = Some "Basic dTpw".
Proof.
  intros basic auth_req auth_req' probe_req pull_req w sent.
  split; [|split; [|split]].
  - refine (proj1 (proj1 (C10_authorization_flow SimpleUrl.lib Sample.production
                            auth_req
                            (Sample.url_docker "/v2/auth"
                               "?scope=repository:busybox:pull")
                            eq_refl eq_refl) eq_refl auth_req' _)).
    repeat (split; [reflexivity|]).
    intros name Hname. unfold auth_req, auth_req', Sample.GET. simpl.
    unfold basic.
    destruct (decide (name = "host")) as [->|Hh].
    + by rewrite !lookup_insert_eq.
    + rewrite !lookup_insert_ne by done.
      by rewrite lookup_empty, lookup_singleton_ne.
  - unfold sent.
    destruct (trace w [] (handler (lib := SimpleUrl.lib) Sample.production probe_req)
                !! 0) as [[q r]|] eqn:E; [|vm_compute in E; discriminate E].
    simpl. f_equal.
    exact (proj1 (proj2 (C10_authorization_flow SimpleUrl.lib Sample.production
                           probe_req (Sample.url_docker "/v2/" "") eq_refl eq_refl)
                    _ _ q r (run_exec w _ [])) eq_refl
             (list_elem_of_lookup_2 _ _ _ E)).
  - unfold sent.
    destruct (trace w [] (handler (lib := SimpleUrl.lib) Sample.production auth_req')
                !! 1) as [[q r]|] eqn:E; [|vm_compute in E; discriminate E].
    simpl. f_equal.
    exact (proj1 (proj2 (proj2 (C10_authorization_flow SimpleUrl.lib
                                  Sample.production auth_req'
                                  (Sample.url_docker "/v2/auth"
                                     "?scope=repository:busybox:pull")
                                  eq_refl eq_refl)
                           _ _ q r (run_exec w _ []))) eq_refl E).
  - unfold sent.
    destruct (trace w [] (handler (lib := SimpleUrl.lib) Sample.production pull_req)
                !! 0) as [[q r]|] eqn:E; [|vm_compute in E; discriminate E].
    simpl.
    refine (proj2 (proj2 (proj2 (C10_authorization_flow SimpleUrl.lib
                                  Sample.production pull_req
                                  (Sample.url_at "quay.api.example.com"
                                     "/v2/coreos/etcd/manifests/latest" "")
                                  eq_refl eq_refl)
                           _ _ q r (run_exec w _ []))) _ _
              (list_elem_of_lookup_2 _ _ _ E));
      discriminate.
Defined.

(** C10, as stated, fails in its last part: a pull through the generic
    forwarder, which is neither the probe endpoint nor the request to the
    token realm, carries the client's Authorization header upstream. *)
Lemma C10_counterexample :
  let req :=
    Sample.GET "quay.api.example.com" "/v2/coreos/etcd/manifests/latest"
      {[ "authorization" := "Bearer secret" ]} in
  exists q,
    first_request (handler (lib := SimpleUrl.lib) Sample.production req) = Some q /\
    fr_url q = "https://quay.io/v2/coreos/etcd/manifests/latest" /\
    fr_url q <> "https://quay.io/v2/" /\
    fr_headers q !! "authorization" = Some "Bearer secret".
Proof.
  intros req. eexists. split; [reflexivity|].
  split; [reflexivity|]. split; [discriminate|reflexivity].
Qed.

(** ** Challenge parsing *)

Module RegexFacts.
Import Regex.

Lemma match_all_cons p2 p1 skip c s :
  match_all p2 p1 skip (String c s) =
    match (match skip with
           | O => if lookbehind p2 p1 then value_body (String c s) else None
           | S _ => None
           end) with
    | Some b => b :: match_all p1 (Some c) (pred (String.length b)) s
    | None => match_all p1 (Some c) (pred skip) s
    end.
Proof.
  destruct skip as [|n]; cbn -[value_body lookbehind]; [|done].
  destruct (lookbehind p2 p1); [|done].
  by destruct (value_body (String c s)).
Qed.

Lemma lookbehind_not_quote p2 c :
  Ascii.eqb c Str.dquote = false -> lookbehind p2 (Some c) = false.
Proof.
  intros Hc. unfold lookbehind. apply andb_false_intro2.
  apply bool_decide_eq_false_2. intros [= ->]. by rewrite Ascii.eqb_refl in Hc.
Qed.

Lemma step p2 p1 c s :
  lookbehind p2 p1 = false ->
  match_all p2 p1 0 (String c s) = match_all p1 (Some c) 0 s.
Proof. intros H. by rewrite match_all_cons, H. Qed.

Lemma behind_snd s p2 p1 :
  snd (behind p2 p1 s) = match last_char s with Some c => Some c | None => p1 end.
Proof.
  revert p2 p1. induction s as [|c s IH]; intros p2 p1; simpl; [done|].
  rewrite IH. by destruct (last_char s).
Qed.

Lemma last_char_not_quote s :
  Str.includes Str.dquote s = false -> last_char s <> Some Str.dquote.
Proof.
  induction s as [|c s IH]; simpl; [done|].
  intros [Hc Hs]%orb_false_iff. destruct (last_char s); [by apply IH|].
  intros [= ->]. by rewrite Ascii.eqb_refl in Hc.
Qed.

(** A stretch without double quote, or covered by the last match, holds
    no match, and none starts right after it. *)
Lemma quiet s : forall p2 p1 skip rest,
  Str.includes Str.dquote s = false ->
  (skip = 0 -> lookbehind p2 p1 = false) ->
  skip <= String.length s ->
  match_all p2 p1 skip (s +:+ rest)
    = match_all (fst (behind p2 p1 s)) (snd (behind p2 p1 s)) 0 rest /\
  lookbehind (fst (behind p2 p1 s)) (snd (behind p2 p1 s)) = false.
Proof.
  induction s as [|c s IH]; intros p2 p1 skip rest Hq Hl Hlen;
    simpl in Hq, Hlen.
  - assert (skip = 0) as -> by lia. simpl. auto.
  - apply orb_false_iff in Hq as [Hc Hs].
    change (String c s +:+ rest) with (String c (s +:+ rest)).
    change (behind p2 p1 (String c s)) with (behind p1 (Some c) s).
    rewrite match_all_cons.
    assert (E : match skip with
                | O => if lookbehind p2 p1
                       then value_body (String c (s +:+ rest)) else None
                | S _ => None
                end = None).
    { destruct skip; [by rewrite Hl|done]. }
    rewrite E. apply IH; [done| |lia].
    intros _. by apply lookbehind_not_quote.
Qed.

Lemma value_body_plain v rest :
  plain v = true -> value_body (v +:+ String Str.dquote rest) = Some v.
Proof.
  unfold plain. induction v as [|c v IH]; simpl; [done|].
  rewrite !negb_orb. intros [[Hq Hv]%andb_true_iff [Hb Hv']%andb_true_iff]%andb_true_iff.
  apply negb_true_iff in Hq, Hb. rewrite Hq, Hb.
  rewrite IH; [done|]. by rewrite Hv, Hv'.
Qed.

Lemma plain_no_quote v : plain v = true -> Str.includes Str.dquote v = false.
Proof. unfold plain. intros [H _]%andb_true_iff. by apply negb_true_iff. Qed.

(** A plain value right after an equals sign and a quote is matched, and
    the search goes on behind its closing quote. *)
Lemma match_value v rest :
  plain v = true ->
  match_all (Some Str.equals) (Some Str.dquote) 0 (v +:+ String Str.dquote rest)
    = v :: match_all (before_closing v) (Some Str.dquote) 0 rest.
Proof.
  intros Hv. pose proof (plain_no_quote _ Hv) as Hq.
  destruct v as [|c v].
  - change ("" +:+ String Str.dquote rest) with (String Str.dquote rest).
    by rewrite match_all_cons.
  - change (String c v +:+ String Str.dquote rest)
      with (String c (v +:+ String Str.dquote rest)).
    rewrite match_all_cons. change (lookbehind _ _) with true. cbv iota.
    change (String c (v +:+ String Str.dquote rest))
      with (String c v +:+ String Str.dquote rest).
    rewrite (value_body_plain _ _ Hv). simpl pred.
    simpl in Hq. apply orb_false_iff in Hq as [Hc Hq].
    destruct (quiet v (Some Str.dquote) (Some c) (String.length v)
                (String Str.dquote rest) Hq) as [-> Hl]; [|done|].
    { intros _. by apply lookbehind_not_quote. }
    rewrite (step _ _ _ _ Hl), behind_snd. unfold before_closing. simpl.
    by destruct (last_char v).
Qed.

(** From a position where no match starts, over a stretch without
    quotes, to the value that follows an equals sign and a quote. *)
Lemma scan_to_value s v rest p2 p1 :
  Str.includes Str.dquote s = false ->
  lookbehind p2 p1 = false ->
  plain v = true ->
  match_all p2 p1 0
    (s +:+ String Str.equals (String Str.dquote (v +:+ String Str.dquote rest)))
    = v :: match_all (before_closing v) (Some Str.dquote) 0 rest.
Proof.
  intros Hs Hl Hv.
  destruct (quiet s p2 p1 0
              (String Str.equals (String Str.dquote (v +:+ String Str.dquote rest)))
              Hs) as [-> Hl']; [done|lia|].
  rewrite (step _ _ _ _ Hl'), step; [by apply match_value|].
  by apply lookbehind_not_quote.
Qed.

Lemma no_quote_no_match s :
  Str.includes Str.dquote s = false -> matches s = [].
Proof.
  intros Hs. unfold matches.
  destruct (quiet s None None 0 "" Hs) as [E _]; [done|lia|].
  replace (s +:+ "") with s in E.
  - rewrite E. simpl. by destruct (lookbehind _ _).
  - clear. induction s as [|c s IH]; [done|].
    change (String c s +:+ "") with (String c (s +:+ "")). by rewrite <- IH.
Qed.

(** What a match is: a stretch of the text between an equals sign with
    a double quote and a double quote. *)
Lemma string_app_assoc (a b c : string) : (a +:+ b) +:+ c = a +:+ (b +:+ c).
Proof.
  induction a as [|x a IH]; [done|].
  change ((String x a +:+ b) +:+ c) with (String x ((a +:+ b) +:+ c)).
  change (String x a +:+ b +:+ c) with (String x (a +:+ b +:+ c)).
  by rewrite IH.
Qed.

Lemma value_body_inv s : forall b,
  value_body s = Some b -> exists rest, s = b +:+ String Str.dquote rest.
Proof.
  cut ((forall b, value_body s = Some b ->
          exists rest, s = b +:+ String Str.dquote rest) /\
       (forall c b, value_body (String c s) = Some b ->
          exists rest, String c s = b +:+ String Str.dquote rest)).
  { by intros [H _]. }
  induction s as [|d s [IH1 IH2]].
  - split; [done|]. intros c b. simpl.
    destruct (Ascii.eqb_spec c Str.dquote) as [->|_].
    + intros [= <-]. by exists "".
    + by destruct (Ascii.eqb c Str.backslash).
  - split; [apply IH2|]. intros c b.
    change (value_body (String c (String d s))) with
      (if Ascii.eqb c Str.dquote then Some ""
       else if Ascii.eqb c Str.backslash then
              if line_terminator d then None
              else option_map (fun b => String c (String d b)) (value_body s)
            else option_map (String c) (value_body (String d s))).
    destruct (Ascii.eqb_spec c Str.dquote) as [->|_].
    + intros [= <-]. by exists (String d s).
    + destruct (Ascii.eqb c Str.backslash).
      * destruct (line_terminator d); [done|].
        destruct (value_body s) as [b'|] eqn:E; [|done].
        intros [= <-]. destruct (IH1 b' eq_refl) as [rest ->]. by exists rest.
      * destruct (value_body (String d s)) as [b'|] eqn:E; [|done].
        intros [= <-]. destruct (IH2 d b' E) as [rest ->]. by exists rest.
Qed.

Lemma behind_snoc s c : forall p2 p1,
  behind p2 p1 (s +:+ String c "") = (snd (behind p2 p1 s), Some c).
Proof.
  induction s as [|d s IH]; intros p2 p1; [done|].
  change (String d s +:+ String c "") with (String d (s +:+ String c "")).
  apply IH.
Qed.

Lemma lookbehind_inv s : forall p2 p1,
  lookbehind (fst (behind p2 p1 s)) (snd (behind p2 p1 s)) = true ->
  (s = "" /\ lookbehind p2 p1 = true) \/
  (s = Str.dq /\ p1 = Some Str.equals) \/
  exists a, s = a +:+ String Str.equals Str.dq.
Proof.
  induction s as [|c s IH]; intros p2 p1 H; [by left|]. right.
  destruct (IH p1 (Some c) H) as [[-> Hl]|[[-> Hc]|[a ->]]].
  - left. unfold lookbehind in Hl. apply andb_true_iff in Hl as [H2 H1].
    apply bool_decide_eq_true in H2, H1. by injection H1 as ->.
  - right. exists "". by injection Hc as ->.
  - right. by exists (String c a).
Qed.

Lemma match_all_delimited s : forall pre skip m,
  m ∈ match_all (fst (behind None None pre)) (snd (behind None None pre)) skip s ->
  exists a b,
    pre +:+ s = a +:+ String Str.equals (String Str.dquote (m +:+ String Str.dquote b)).
Proof.
  induction s as [|c s IH]; intros pre skip m Hin.
  - simpl in Hin. destruct skip; [destruct (lookbehind _ _)|]; simpl in Hin;
      by apply elem_of_nil in Hin.
  - rewrite match_all_cons in Hin.
    assert (Hlater : forall k,
              m ∈ match_all (snd (behind None None pre)) (Some c) k s ->
              exists a b,
                pre +:+ String c s
                  = a +:+ String Str.equals
                            (String Str.dquote (m +:+ String Str.dquote b))).
    { intros k Hk.
      destruct (IH (pre +:+ String c "") k m) as (a & b & E).
      - by rewrite behind_snoc.
      - exists a, b. by rewrite <- E, string_app_assoc. }
    destruct skip as [|n]; [|by eapply Hlater].
    destruct (lookbehind _ _) eqn:Hl; [|by eapply Hlater].
    destruct (value_body (String c s)) as [v|] eqn:Hv; [|by eapply Hlater].
    apply elem_of_cons in Hin as [->|Hin]; [|by eapply Hlater].
    apply value_body_inv in Hv as [rest ->].
    apply lookbehind_inv in Hl as [[_ Hl]|[[_ Hl]|[a ->]]]; [done..|].
    exists a, rest. by rewrite string_app_assoc.
Qed.

Lemma matches_delimited h m :
  m ∈ matches h ->
  exists a b, h = a +:+ String Str.equals (String Str.dquote (m +:+ String Str.dquote b)).
Proof. apply (match_all_delimited h "" 0 m). Qed.

End RegexFacts.

Lemma parse_two_values pre v1 mid v2 post :
  Str.includes Str.dquote pre = false ->
  Regex.plain v1 = true ->
  Regex.last_char v1 <> Some Str.equals ->
  Str.includes Str.dquote mid = false ->
  Regex.plain v2 = true ->
  parseAuthenticate
    (pre +:+ "=" +:+ Str.dq +:+ v1 +:+ Str.dq
         +:+ mid +:+ "=" +:+ Str.dq +:+ v2 +:+ Str.dq +:+ post)
    = inr {| realm := v1; service := v2 |}.
Proof.
  intros Hpre Hv1 Hlast Hmid Hv2. unfold parseAuthenticate, Regex.matches.
  change (pre +:+ "=" +:+ Str.dq +:+ v1 +:+ Str.dq
              +:+ mid +:+ "=" +:+ Str.dq +:+ v2 +:+ Str.dq +:+ post)
    with (pre +:+ String Str.equals (String Str.dquote
            (v1 +:+ String Str.dquote
               (mid +:+ String Str.equals (String Str.dquote
                  (v2 +:+ String Str.dquote post)))))).
  rewrite (RegexFacts.scan_to_value pre v1 _ None None Hpre eq_refl Hv1).
  rewrite (RegexFacts.scan_to_value mid v2 _ _ _ Hmid); [done| |done].
  unfold Regex.lookbehind. apply andb_false_intro1, bool_decide_eq_false_2.
  unfold Regex.before_closing. by destruct (Regex.last_char v1).
Qed.

Lemma parse_delimited h c :
  parseAuthenticate h = inr c ->
  (exists a b, h = a +:+ "=" +:+ Str.dq +:+ realm c +:+ Str.dq +:+ b) /\
  (exists a b, h = a +:+ "=" +:+ Str.dq +:+ service c +:+ Str.dq +:+ b).
Proof.
  unfold parseAuthenticate.
  destruct (Regex.matches h) as [|m0 [|m1 l]] eqn:E; [done..|].
  intros [= <-]. simpl.
  split; apply (RegexFacts.matches_delimited h); rewrite E; set_solver.
Qed.

Lemma parse_too_few h :
  length (Regex.matches h) < 2 -> parseAuthenticate h = inl (InvalidAuthenticate h).
Proof.
  unfold parseAuthenticate. destruct (Regex.matches h) as [|m0 [|m1 l]]; simpl;
    [done|done|lia].
Qed.

(** A challenge that cannot be parsed ends in the error middleware. *)
Lemma malformed_challenge_500 {lib : UrlLib} cfg (w : World) req url newUrl resp h :
  JS.truthy (upstream_of cfg req) = true ->
  url_parse_base (req_url req) (base_of req) = Some url ->
  pathname url = "/v2/auth" ->
  url_parse (JS.to_string (upstream_of cfg req) +:+ "/v2/") = Some newUrl ->
  w [] (discovery newUrl) = Some resp ->
  status resp = 401 ->
  resp_headers resp !! "www-authenticate" = Some h ->
  Str.nonempty h = true ->
  length (Regex.matches h) < 2 ->
  run w [] (handler cfg req) = inl (InvalidAuthenticate h) /\
  serve cfg w req = ResSend 500 "Internal Server Error".
Proof.
  intros Ht Hu Hp Hn Hw Hs Hh Hne Hfew.
  assert (E : run w [] (handler cfg req) = inl (InvalidAuthenticate h)).
  { rewrite (handler_dispatch _ _ _ Ht Hu), Hp. simpl.
    unfold auth, new_URL, try_option. rewrite Hn. cbn. rewrite Hw. cbn.
    rewrite Hs, Hh, Hne. cbn. by rewrite (parse_too_few _ Hfew). }
  split; [done|]. unfold serve. by rewrite E.
Qed.

(** C5, as amended: challenge parsing takes, in order, the first two
    values that the header text gives as an equals sign, a double quote,
    the value and a double quote, as realm and service: for a header in
    which two such values without quote or backslash follow each other,
    with no other double quote before or between them and the first value
    not ending in an equals sign, the result is exactly these two, and
    whatever is returned as realm or service stands in the text between
    an equals sign with a double quote and a double quote.  When
    the text has fewer than two such values, parsing fails with an error
    that carries the header text, and the client of [/v2/auth] gets the
    generic 500 response. *)
Theorem C5_challenge_parsing :
  (forall pre v1 mid v2 post,
     Str.includes Str.dquote pre = false ->
     Regex.plain v1 = true ->
     Regex.last_char v1 <> Some Str.equals ->
     Str.includes Str.dquote mid = false ->
     Regex.plain v2 = true ->
     parseAuthenticate
       (pre +:+ "=" +:+ Str.dq +:+ v1 +:+ Str.dq
            +:+ mid +:+ "=" +:+ Str.dq +:+ v2 +:+ Str.dq +:+ post)
       = inr {| realm := v1; service := v2 |}) /\
  (forall h c, parseAuthenticate h = inr c ->
     (exists a b, h = a +:+ "=" +:+ Str.dq +:+ realm c +:+ Str.dq +:+ b) /\
     (exists a b, h = a +:+ "=" +:+ Str.dq +:+ service c +:+ Str.dq +:+ b)) /\
  (forall h, length (Regex.matches h) < 2 ->
     parseAuthenticate h = inl (InvalidAuthenticate h)) /\
  (forall (lib : UrlLib) cfg (w : World) req url newUrl resp h,
     JS.truthy (upstream_of cfg req) = true ->
     url_parse_base (req_url req) (base_of req) = Some url ->
     pathname url = "/v2/auth" ->
     url_parse (JS.to_string (upstream_of cfg req) +:+ "/v2/") = Some newUrl ->
     w [] (discovery newUrl) = Some resp ->
     status resp = 401 ->
     resp_headers resp !! "www-authenticate" = Some h ->
     Str.nonempty h = true ->
     length (Regex.matches h) < 2 ->
     run w [] (handler cfg req) = inl (InvalidAuthenticate h) /\
     serve cfg w req = ResSend 500 "Internal Server Error").
Proof.
  split; [exact parse_two_values|]. split; [exact parse_delimited|].
  split; [exact parse_too_few|].
  intros lib. apply malformed_challenge_500.
Qed.

Lemma C5_challenge_parsing_witness :
  let req := Sample.GET "docker.api.example.com" "/v2/auth" ∅ in
  let negotiate : UpResponse :=
    {| status := 401; resp_headers := {[ "www-authenticate" := "Negotiate" ]};
       resp_body := None |} in
  parseAuthenticate Sample.hub_challenge
    = inr {| realm := "https://auth.docker.io/token";
             service := "registry.docker.io" |} /\
  (exists a b,
     Sample.hub_challenge
       = a +:+ "=" +:+ Str.dq +:+ "registry.docker.io" +:+ Str.dq +:+ b) /\
  parseAuthenticate "Negotiate" = inl (InvalidAuthenticate "Negotiate") /\
  serve (lib := SimpleUrl.lib) Sample.production
        (Sample.constant_world negotiate) req
    = ResSend 500 "Internal Server Error".
Proof.
  intros req negotiate.
  destruct C5_challenge_parsing as (Hok & Hin & Hfew & H500).
  split; [|split; [|split]].
  - exact (Hok "Bearer realm" "https://auth.docker.io/token" ",service"
             "registry.docker.io" "" eq_refl eq_refl
             ltac:(discriminate) eq_refl eq_refl).
  - exact (proj2 (Hin Sample.hub_challenge
                    {| realm := "https://auth.docker.io/token";
                       service := "registry.docker.io" |} eq_refl)).
  - apply Hfew. vm_compute. lia.
  - refine (proj2 (H500 SimpleUrl.lib Sample.production
                     (Sample.constant_world negotiate) req
                     (Sample.url_docker "/v2/auth" "")
                     (mkURL "https:" "registry-1.docker.io" "" "/v2/" "")
                     negotiate "Negotiate"
                     eq_refl eq_refl eq_refl eq_refl eq_refl eq_refl eq_refl
                     eq_refl _)).
    vm_compute. lia.
Defined.

(** C5, as stated, fails on a challenge that puts a blank between the
    equals sign and the quote: the text holds two double-quoted values,
    and parsing fails all the same. *)
Lemma C5_counterexample :
  let h :=
    "Bearer realm= " +:+ Str.dq +:+ "https://auth.docker.io/token" +:+ Str.dq
      +:+ ",service= " +:+ Str.dq +:+ "registry.docker.io" +:+ Str.dq in
  SpecWords.parse_challenge h
    = Some {| realm := "https://auth.docker.io/token";
              service := "registry.docker.io" |} /\
  parseAuthenticate h = inl (InvalidAuthenticate h).
Proof. split; vm_compute; reflexivity. Qed.

(** A realm that ends in an equals sign makes its own closing quote pass
    for an opening one: the text up to the next quote is taken as the
    service. *)
Example value_ending_in_equals :
  parseAuthenticate
    ("Bearer " +:+ Sample.key_value "realm" "https://auth.example.com/token?account="
       +:+ "," +:+ Sample.key_value "service" "registry.example.com")
  = inr {| realm := "https://auth.example.com/token?account=";
           service := ",service=" |}.
Proof. vm_compute. reflexivity. Qed.

(** ** The scenarios of the specification, run *)

Example default_configuration :
  load_config None None None
    = {| CUSTOM_DOMAIN := "example.com"; MODE := "production";
         TARGET_UPSTREAM := "" |}.
Proof. reflexivity. Qed.

Example scenario_A :
  serve (lib := SimpleUrl.lib) Sample.production
        (Sample.hub_world Sample.token_200)
        (Sample.GET "docker.api.example.com" "/v2/" ∅)
    = ResJson 401
        {[ "WWW-Authenticate" :=
             unauthorized_challenge "https" "docker.api.example.com"
               "docker-repository-proxy" ]}
        (JsonField "message" (JsonString "UNAUTHORIZED")).
Proof. vm_compute. reflexivity. Qed.

(** The handler resolves the request URL against an http base, so the
    target of the redirect is an http address. *)
Example scenario_C :
  serve (lib := SimpleUrl.lib) Sample.production
        (Sample.hub_world Sample.token_200)
        (Sample.GET "docker.api.example.com" "/v2/busybox/manifests/latest" ∅)
    = ResRedirect 301
        "http://docker.api.example.com/v2/library/busybox/manifests/latest".
Proof. reflexivity. Qed.

(** In debug mode an unknown host goes to the fallback upstream. *)
Example debug_fallback :
  fr_url <$> first_request
    (handler (lib := SimpleUrl.lib) Sample.debug
       (Sample.GET "localhost" "/v2/coreos/etcd/manifests/latest" ∅))
  = Some "https://quay.io/v2/coreos/etcd/manifests/latest".
Proof. reflexivity. Qed.

(** * Further properties of the code *)

(** ** Splitting and joining, continued *)

Lemma join_cons sep c h t :
  Str.join sep (String c h :: t) = String c (Str.join sep (h :: t)).
Proof. unfold Str.join. simpl. by destruct t. Qed.

(** Joining what a split gave restores the text. *)
Lemma join_split sep s :
  Str.join (String sep "") (Str.split sep s) = s.
Proof.
  induction s as [|c s IH]; [done|]. simpl.
  destruct (Ascii.eqb_spec c sep) as [->|_].
  - pose proof (split_not_nil sep s) as Hn.
    destruct (Str.split sep s) as [|h t] eqn:E; [done|].
    unfold Str.join in *. simpl in *. by rewrite IH.
  - pose proof (split_not_nil sep s) as Hn.
    destruct (Str.split sep s) as [|h t] eqn:E; [done|].
    by rewrite join_cons, IH.
Qed.

(** No part of a split holds the separator. *)
Lemma split_parts_plain sep s :
  Forall (fun p => Str.includes sep p = false) (Str.split sep s).
Proof.
  induction s as [|c s IH]; simpl; [by repeat constructor|].
  destruct (Ascii.eqb c sep) eqn:Hc; [by constructor|].
  destruct (Str.split sep s) as [|h t]; [by repeat constructor; simpl; rewrite Hc|].
  inversion IH; subst. constructor; [|done]. simpl. by rewrite Hc.
Qed.

(** Splitting what a join gave restores the parts, when no part holds the
    separator. *)
Lemma split_join sep parts :
  parts <> [] ->
  Forall (fun p => Str.includes sep p = false) parts ->
  Str.split sep (Str.join (String sep "") parts) = parts.
Proof.
  induction parts as [|x [|y l] IH]; intros Hne Hall; [done| |].
  - inversion Hall; subst. by apply split_plain.
  - inversion Hall; subst.
    change (Str.join (String sep "") (x :: y :: l))
      with (x +:+ String sep (Str.join (String sep "") (y :: l))).
    rewrite split_app by done. by rewrite IH.
Qed.

Lemma includes_app c s t :
  Str.includes c (s +:+ t) = Str.includes c s || Str.includes c t.
Proof.
  induction s as [|d s IH]; [done|].
  change (String d s +:+ t) with (String d (s +:+ t)). simpl.
  by rewrite IH, orb_assoc.
Qed.

(** ** The scope completion, continued *)

(** A completed scope is left as it is. *)
Lemma rewriteScope_completed p0 p1 p2 :
  Str.includes Str.colon p0 = false ->
  Str.includes Str.colon p1 = false ->
  Str.includes Str.colon p2 = false ->
  rewriteScope true (Some (Str.join ":" [p0; "library/" +:+ p1; p2]))
    = Some (Str.join ":" [p0; "library/" +:+ p1; p2]).
Proof.
  intros H0 H1 H2.
  change (Str.join ":" [p0; "library/" +:+ p1; p2])
    with (p0 +:+ ":" +:+ ("library/" +:+ p1) +:+ ":" +:+ p2).
  unfold rewriteScope. rewrite triple_nonempty, split_triple; [done|done| |done].
  by rewrite includes_app.
Qed.

(** What the completion returns: the scope itself, or its three parts
    with the name completed. *)
Lemma rewriteScope_cases s :
  rewriteScope true (Some s) = Some s \/
  exists p0 p1 p2,
    Str.includes Str.colon p0 = false /\
    Str.includes Str.colon p1 = false /\
    Str.includes Str.colon p2 = false /\
    rewriteScope true (Some s) = Some (Str.join ":" [p0; "library/" +:+ p1; p2]).
Proof.
  unfold rewriteScope.
  destruct (Str.nonempty s); [|by left]. cbn [andb].
  pose proof (split_parts_plain Str.colon s) as Hparts.
  destruct (Str.split Str.colon s) as [|p0 [|p1 [|p2 [|p3 l]]]]; try by left.
  destruct (Str.includes Str.slash p1); [by left|]. right.
  inversion Hparts as [|? ? H0 Hparts']; subst.
  inversion Hparts' as [|? ? H1 Hparts'']; subst.
  inversion Hparts'' as [|? ? H2 _]; subst.
  by exists p0, p1, p2.
Qed.

(** X1: completing a scope twice is completing it once, for every scope
    text and either kind of upstream: a completed name holds a slash, so
    it is not completed again. *)
Theorem X1_rewriteScope_idempotent :
  forall isDockerHub scope,
    rewriteScope isDockerHub (rewriteScope isDockerHub scope)
      = rewriteScope isDockerHub scope.
Proof.
  intros [|] [s|]; [|done|by rewrite !rewriteScope_not_hub|done].
  destruct (rewriteScope_cases s) as [E|(p0 & p1 & p2 & H0 & H1 & H2 & E)];
    rewrite E; [done|].
  by apply rewriteScope_completed.
Qed.

(** ** The library redirect, continued *)

Lemma splice_insert_length i x parts :
  length (Str.splice_insert i x parts) = S (length parts).
Proof.
  unfold Str.splice_insert. rewrite length_app. simpl.
  rewrite length_take, length_drop. lia.
Qed.

(** X2: the target of the library redirect is not redirected again.  Its
    path splits into six segments, the five of the request with [library]
    as third, and only the path differs from the client URL; a client that
    follows the redirect is served by the forwarder, against Docker Hub,
    with that path. *)
Theorem X2_redirect_target_is_final :
  forall (lib : UrlLib) cfg url,
    length (Str.split Str.slash (pathname url)) = 5 ->
    let target :=
      set_pathname url
        (Str.join "/" (Str.splice_insert 2 "library"
                         (Str.split Str.slash (pathname url)))) in
    Str.split Str.slash (pathname target)
      = Str.splice_insert 2 "library" (Str.split Str.slash (pathname url)) /\
    length (Str.split Str.slash (pathname target)) = 6 /\
    normalizePath true target = None /\
    (protocol target, host target, search target)
      = (protocol url, host url, search url) /\
    forall req',
      upstream_of cfg req' = JStr dockerHub ->
      url_parse_base (req_url req') (base_of req') = Some target ->
      handler cfg req' = forward cfg (JStr dockerHub) req' target.
Proof.
  intros lib cfg url Hlen target.
  assert (E : Str.split Str.slash (pathname target)
              = Str.splice_insert 2 "library" (Str.split Str.slash (pathname url))).
  { unfold target. simpl pathname. apply split_join.
    - unfold Str.splice_insert. by destruct (take 2 _).
    - unfold Str.splice_insert.
      pose proof (split_parts_plain Str.slash (pathname url)) as Hall.
      apply Forall_app. split; [by apply Forall_take|].
      constructor; [done|by apply Forall_drop]. }
  assert (E6 : length (Str.split Str.slash (pathname target)) = 6).
  { by rewrite E, splice_insert_length, Hlen. }
  split; [done|]. split; [done|]. split.
  { unfold normalizePath. by rewrite E6. }
  split; [done|].
  intros req' Hup Hu. rewrite <- Hup.
  apply handler_other_segments; [by apply dockerHub_truthy|done| | |lia].
  - intros Hp. rewrite Hp in E6. discriminate E6.
  - intros Hp. rewrite Hp in E6. discriminate E6.
Qed.

Lemma X2_redirect_target_is_final_witness :
  let req' :=
    Sample.GET "docker.api.example.com" "/v2/library/busybox/manifests/latest?n=5" ∅ in
  Str.split Str.slash "/v2/library/busybox/manifests/latest"
    = [""; "v2"; "library"; "busybox"; "manifests"; "latest"] /\
  fr_url <$> first_request (handler (lib := SimpleUrl.lib) Sample.production req')
    = Some "https://registry-1.docker.io/v2/library/busybox/manifests/latest?n=5".
Proof.
  intros req'.
  destruct (X2_redirect_target_is_final SimpleUrl.lib Sample.production
              (Sample.url_docker "/v2/busybox/manifests/latest" "?n=5") eq_refl)
    as (Hsplit & _ & _ & _ & Hfollow).
  split; [exact Hsplit|].
  rewrite (Hfollow req' eq_refl eq_refl). reflexivity.
Defined.

(** ** The route table and the router, continued *)

Ltac route_lookup :=
  unfold routes;
  repeat (rewrite lookup_insert_ne; [|simpl; discriminate]);
  first [apply lookup_insert_eq | apply lookup_empty].

(** X3: whatever the custom domain, the route table has nine entries, one
    per prefix, and in either mode the host made of a prefix and the
    domain resolves to the registry of that prefix; [docker] and
    [docker-staging] both resolve to Docker Hub. *)
Theorem X3_route_table :
  forall cfg,
    size (routes cfg) = 9 /\
    forall prefix upstream,
      (prefix, upstream) ∈
        [ ("docker.", dockerHub);
          ("quay.", "https://quay.io");
          ("gcr.", "https://gcr.io");
          ("k8s-gcr.", "https://k8s.gcr.io");
          ("k8s.", "https://registry.k8s.io");
          ("ghcr.", "https://ghcr.io");
          ("cloudsmith.", "https://docker.cloudsmith.io");
          ("ecr.", "https://public.ecr.aws");
          ("docker-staging.", dockerHub) ] ->
      routeByHosts cfg (prefix +:+ CUSTOM_DOMAIN cfg) = JStr upstream.
Proof.
  intros cfg. split.
  - unfold routes.
    repeat (rewrite map_size_insert_None;
            [|repeat (rewrite lookup_insert_ne; [|simpl; discriminate]);
              apply lookup_empty]).
    by rewrite map_size_empty.
  - intros prefix upstream Hin.
    repeat (apply elem_of_cons in Hin as [[= -> ->]|Hin];
            [apply routeByHosts_present; route_lookup|]).
    by apply elem_of_nil in Hin.
Qed.

Lemma X3_route_table_witness :
  routeByHosts Sample.production "ghcr.api.example.com" = JStr "https://ghcr.io".
Proof.
  refine (proj2 (X3_route_table Sample.production) "ghcr." "https://ghcr.io" _).
  set_solver.
Defined.

(** X4: the fallback upstream is used in debug mode only, and only for
    hosts the table lookup does not answer.  In debug mode such a host
    resolves to [TARGET_UPSTREAM]; when that is empty the client gets the
    404 with the table, and otherwise, unless it is Docker Hub or the path
    is one of the two auth paths, the request goes to the forwarder with
    the fallback as upstream.  Outside debug mode the setting has no
    effect on any resolution. *)
Theorem X4_debug_fallback :
  forall (lib : UrlLib) cfg,
    (is_debug cfg = true ->
     forall req h,
       req_hostname req = Some h ->
       routes cfg !! h = None -> h ∉ JS.object_prototype_names ->
       upstream_of cfg req = JStr (TARGET_UPSTREAM cfg) /\
       (TARGET_UPSTREAM cfg = "" -> handler cfg req = Ret (notFound cfg)) /\
       (forall url,
          TARGET_UPSTREAM cfg <> "" -> TARGET_UPSTREAM cfg <> dockerHub ->
          url_parse_base (req_url req) (base_of req) = Some url ->
          pathname url <> "/v2/" -> pathname url <> "/v2/auth" ->
          handler cfg req = forward cfg (JStr (TARGET_UPSTREAM cfg)) req url)) /\
    (is_debug cfg = false ->
     forall target h,
       routeByHosts
         {| CUSTOM_DOMAIN := CUSTOM_DOMAIN cfg; MODE := MODE cfg;
            TARGET_UPSTREAM := target |} h
       = routeByHosts cfg h).
Proof.
  intros lib cfg. split.
  - intros Hd req h Hh Hr Hn.
    assert (Hup : upstream_of cfg req = JStr (TARGET_UPSTREAM cfg)).
    { unfold upstream_of. rewrite Hh. simpl.
      by rewrite (routeByHosts_absent _ _ Hr Hn), Hd. }
    split; [done|]. split.
    + intros Ht. apply handler_unresolved. by rewrite Hup, Ht.
    + intros url Ht Hhub Hu H1 H2.
      assert (Htruthy : JS.truthy (upstream_of cfg req) = true).
      { rewrite Hup. simpl. by destruct (TARGET_UPSTREAM cfg). }
      rewrite (handler_dispatch _ _ _ Htruthy Hu), Hup.
      destruct (String.eqb_spec (pathname url) "/v2/") as [|_]; [done|].
      destruct (String.eqb_spec (pathname url) "/v2/auth") as [|_]; [done|].
      unfold normalizePath. rewrite bool_decide_eq_false_2; [done|].
      by intros [= E].
  - intros Hd target h. unfold routeByHosts, is_debug in *. simpl.
    rewrite Hd. reflexivity.
Qed.

Lemma X4_debug_fallback_witness :
  let req := Sample.GET "localhost" "/v2/coreos/etcd/manifests/latest" ∅ in
  let silent : Config :=
    {| CUSTOM_DOMAIN := "api.example.com"; MODE := "debug"; TARGET_UPSTREAM := "" |} in
  handler (lib := SimpleUrl.lib) Sample.debug req
    = forward (lib := SimpleUrl.lib) Sample.debug (JStr "https://quay.io") req
        (Sample.url_at "localhost" "/v2/coreos/etcd/manifests/latest" "") /\
  handler (lib := SimpleUrl.lib) silent req = Ret (notFound silent) /\
  routeByHosts
    {| CUSTOM_DOMAIN := "api.example.com"; MODE := "production";
       TARGET_UPSTREAM := "https://quay.io" |} "localhost" = JStr "".
Proof.
  intros req silent.
  assert (Hn : "localhost" ∉ JS.object_prototype_names).
  { unfold JS.object_prototype_names.
    repeat (apply not_elem_of_cons; split; [discriminate|]).
    apply not_elem_of_nil. }
  split; [|split].
  - refine (proj2 (proj2 (proj1 (X4_debug_fallback SimpleUrl.lib Sample.debug)
                            eq_refl req "localhost" eq_refl eq_refl Hn))
              _ _ _ eq_refl _ _); discriminate.
  - exact (proj1 (proj2 (proj1 (X4_debug_fallback SimpleUrl.lib silent)
                           eq_refl req "localhost" eq_refl eq_refl Hn)) eq_refl).
  - exact (proj2 (X4_debug_fallback SimpleUrl.lib Sample.production) eq_refl
             "https://quay.io" "localhost").
Defined.

(** ** The executions of the handler, in full *)

Section Executions.

Context {lib : UrlLib}.
Variable cfg : Config.

(** Every way the [/v2/auth] branch can run. *)
Lemma exec_auth_full upstream isDockerHub authorization url tr o :
  exec (auth upstream isDockerHub authorization url) tr o ->
  (tr = [] /\ o = inl (InvalidURL (JS.to_string upstream +:+ "/v2/"))) \/
  exists newUrl,
    url_parse (JS.to_string upstream +:+ "/v2/") = Some newUrl /\
    ((tr = [(discovery newUrl, None)] /\
      o = inl (FetchFailed (href newUrl))) \/
     exists resp,
       (tr = [(discovery newUrl, Some resp)] /\ o = inr (ResStream resp) /\
        (status resp <> 401 \/
         resp_headers resp !! "www-authenticate" = None \/
         resp_headers resp !! "www-authenticate" = Some "")) \/
       exists h,
         status resp = 401 /\
         resp_headers resp !! "www-authenticate" = Some h /\ h <> "" /\
         ((tr = [(discovery newUrl, Some resp)] /\
           parseAuthenticate h = inl (InvalidAuthenticate h) /\
           o = inl (InvalidAuthenticate h)) \/
          exists ch,
            parseAuthenticate h = inr ch /\
            ((tr = [(discovery newUrl, Some resp)] /\
              url_parse (realm ch) = None /\ o = inl (InvalidURL (realm ch))) \/
             exists tokenUrl r,
               url_parse (realm ch) = Some tokenUrl /\
               tr = [(discovery newUrl, Some resp);
                     ({| fr_url :=
                           href (token_address ch
                                   (rewriteScope isDockerHub
                                      (query_get (search url) "scope"))
                                   tokenUrl);
                         fr_method := "GET";
                         fr_headers := authorization_headers authorization;
                         fr_redirect := None; fr_body := None |}, r)] /\
               o = match r with
                   | Some tokenResp => inr (ResStream tokenResp)
                   | None =>
                       inl (FetchFailed
                              (href (token_address ch
                                       (rewriteScope isDockerHub
                                          (query_get (search url) "scope"))
                                       tokenUrl)))
                   end))).
Proof.
  unfold auth, new_URL, try_option.
  destruct (url_parse _) as [newUrl|] eqn:E; cbn; intros H;
    [|left; by exec_inv H].
  right. exists newUrl. split; [done|].
  exec_inv H; [|by left]. right. exists r. cbn in H4.
  destruct (Nat.eqb_spec (status r) 401) as [Hs|Hs]; cbn in H4;
    [|exec_inv H4; left; auto].
  destruct (resp_headers r !! "www-authenticate") as [h|] eqn:Hh;
    [|exec_inv H4; left; auto].
  destruct h as [|c h]; cbn in H4; [exec_inv H4; left; auto|].
  right. exists (String c h). split; [done|]. split; [done|]. split; [done|].
  unfold try_sum in H4.
  destruct (parseAuthenticate (String c h)) as [e|ch] eqn:Hp; cbn in H4.
  { left. exec_inv H4. split; [done|].
    unfold parseAuthenticate in Hp |- *.
    destruct (Regex.matches (String c h)) as [|m0 [|m1 l]]; by inversion Hp. }
  right. exists ch. split; [done|].
  unfold fetchToken, new_URL, try_option in H4.
  destruct (url_parse (realm ch)) as [tokenUrl|] eqn:Hr; cbn in H4;
    [|exec_inv H4; left; auto].
  right. exists tokenUrl.
  exec_inv H4.
  - exists (Some r0).
    match goal with H : exec _ _ _ |- _ => cbn in H; exec_inv H end.
    auto.
  - exists None. auto.
Qed.

(** Every way the handler can run: the branch it takes and that branch's
    run. *)
Lemma exec_handler_cases req tr o :
  exec (handler cfg req) tr o ->
  (JS.truthy (upstream_of cfg req) = false /\ tr = [] /\ o = inr (notFound cfg)) \/
  (JS.truthy (upstream_of cfg req) = true /\
   ((url_parse_base (req_url req) (base_of req) = None /\
     tr = [] /\ o = inl (InvalidURL (req_url req))) \/
    exists url,
      url_parse_base (req_url req) (base_of req) = Some url /\
      ((pathname url = "/v2/" /\
        exec (probe cfg (upstream_of cfg req)
                (req_headers req !! "authorization") url) tr o) \/
       (pathname url = "/v2/auth" /\
        exec (auth (upstream_of cfg req)
                (bool_decide (upstream_of cfg req = JStr dockerHub))
                (req_headers req !! "authorization") url) tr o) \/
       (pathname url <> "/v2/" /\ pathname url <> "/v2/auth" /\
        ((exists redirect,
            normalizePath (bool_decide (upstream_of cfg req = JStr dockerHub)) url
              = Some redirect /\ tr = [] /\ o = inr redirect) \/
         (normalizePath (bool_decide (upstream_of cfg req = JStr dockerHub)) url
            = None /\
          exec (forward cfg (upstream_of cfg req) req url) tr o)))))).
Proof.
  intros He.
  destruct (JS.truthy (upstream_of cfg req)) eqn:Ht.
  2:{ left. rewrite (handler_unresolved _ _ Ht) in He. by exec_inv He. }
  right. split; [done|].
  destruct (url_parse_base (req_url req) (base_of req)) as [url|] eqn:Hu.
  2:{ left. rewrite (handler_bad_url _ _ Ht Hu) in He. by exec_inv He. }
  right. exists url. split; [done|].
  rewrite (handler_dispatch _ _ _ Ht Hu) in He.
  destruct (String.eqb_spec (pathname url) "/v2/") as [H1|H1]; [by left|].
  destruct (String.eqb_spec (pathname url) "/v2/auth") as [H2|H2];
    [by right; left|].
  right. right. split; [done|]. split; [done|].
  destruct (normalizePath _ url) as [redirect|].
  - left. exists redirect. by exec_inv He.
  - by right.
Qed.

End Executions.

Section Outcomes.

Context {lib : UrlLib}.
Variable cfg : Config.

Lemma normalizePath_Some isDockerHub url res :
  normalizePath isDockerHub url = Some res ->
  isDockerHub = true /\
  length (Str.split Str.slash (pathname url)) = 5 /\
  res = ResRedirect 301
          (href (set_pathname url
                   (Str.join "/"
                      (Str.splice_insert 2 "library"
                         (Str.split Str.slash (pathname url)))))).
Proof.
  unfold normalizePath. destruct isDockerHub; [|done].
  destruct (Nat.eqb_spec (length (Str.split Str.slash (pathname url))) 5);
    [|done].
  by intros [= <-].
Qed.

(** What the handler can send, and after which exchanges. *)
Lemma handler_outcomes req tr res :
  exec (handler cfg req) tr (inr res) ->
  (JS.truthy (upstream_of cfg req) = false /\ tr = [] /\ res = notFound cfg) \/
  (JS.truthy (upstream_of cfg req) = true /\
   exists url,
     url_parse_base (req_url req) (base_of req) = Some url /\
     ((pathname url <> "/v2/auth" /\
       exists q resp,
         tr = [(q, Some resp)] /\ status resp = 401 /\
         res = responseUnauthorized cfg url) \/
      (exists q resp,
         last tr = Some (q, Some resp) /\ res = ResStream resp /\
         (pathname url <> "/v2/auth" -> status resp <> 401)) \/
      (pathname url <> "/v2/" /\ pathname url <> "/v2/auth" /\
       upstream_of cfg req = JStr dockerHub /\
       length (Str.split Str.slash (pathname url)) = 5 /\
       tr = [] /\
       res = ResRedirect 301
               (href (set_pathname url
                        (Str.join "/"
                           (Str.splice_insert 2 "library"
                              (Str.split Str.slash (pathname url))))))))).
Proof.
  intros He.
  apply exec_handler_cases in He
    as [(Ht & -> & [= <-])|[Ht [(_ & _ & Ho)|(url & Hu & He)]]];
    [by left|done|].
  right. split; [done|]. exists url. split; [done|].
  assert (Hone : forall (q : FetchRequest) r,
            pathname url <> "/v2/auth" ->
            tr = [(q, r)] ->
            match r with
            | None => exists s, inr res = inl (A := Error) (FetchFailed s)
            | Some resp =>
                inr res = inr (A := Error)
                            (if Nat.eqb (status resp) 401
                             then responseUnauthorized cfg url else ResStream resp)
            end ->
            (pathname url <> "/v2/auth" /\
             exists q resp,
               tr = [(q, Some resp)] /\ status resp = 401 /\
               res = responseUnauthorized cfg url) \/
            (exists q resp,
               last tr = Some (q, Some resp) /\ res = ResStream resp /\
               (pathname url <> "/v2/auth" -> status resp <> 401))).
  { intros q [resp|] Hp -> Ho; [|by destruct Ho].
    destruct (Nat.eqb_spec (status resp) 401) as [Hs|Hs]; injection Ho as ->.
    - left. eauto 10.
    - right. exists q, resp. auto. }
  destruct He as [[Hp He]|[[Hp He]|(H1 & H2 & [(redirect & Hn & -> & Ho)|[_ He]])]].
  - apply exec_probe in He as [[_ [s Hs]]|(newUrl & r & _ & Htr & Ho)]; [done|].
    destruct (Hone _ r ltac:(by rewrite Hp) Htr Ho) as [H|H]; auto.
  - apply exec_auth_full in He as [[_ Ho]|(newUrl & _ & He)]; [done|].
    destruct He as [[_ Ho]|(resp & He)]; [done|]. right. left.
    destruct He as [(-> & [= ->] & _)|(h & _ & _ & _ & He)]; [by eauto 10|].
    destruct He as [(_ & _ & Ho)|(ch & _ & He)]; [done|].
    destruct He as [(_ & _ & Ho)|(tokenUrl & r & _ & -> & Ho)]; [done|].
    destruct r as [tokenResp|]; [|done]. injection Ho as ->.
    eexists _, tokenResp. by split.
  - injection Ho as ->.
    apply normalizePath_Some in Hn as (Hd & Hlen & ->).
    apply bool_decide_eq_true in Hd. right. right. auto 10.
  - apply exec_forward in He as [[_ [s Hs]]|(newUrl & up & r & _ & _ & Htr & Ho)];
      [done|].
    destruct (Hone _ r H2 Htr Ho) as [H|H]; auto.
Qed.

End Outcomes.

(** ** What the server answers *)

(** X5: the 404 with the route table is the answer exactly when the host
    resolves to nothing, whatever the path, the method and the headers,
    and no request goes upstream for it. *)
Theorem X5_not_found_iff_unresolved :
  forall (lib : UrlLib) cfg w req,
    (serve cfg w req = notFound cfg <->
     JS.truthy (upstream_of cfg req) = false) /\
    (JS.truthy (upstream_of cfg req) = false ->
     trace w [] (handler cfg req) = []).
Proof.
  intros lib cfg w req. split; [split|].
  - unfold serve. intros Hs.
    pose proof (run_exec w (handler cfg req) []) as He.
    destruct (run w [] (handler cfg req)) as [e|res]; [done|]. subst res.
    apply handler_outcomes in He as [(Ht & _)|(_ & url & _ & He)]; [done|].
    destruct He as [(_ & q & resp & _ & _ & Hr)|[(q & resp & _ & Hr & _)|He]].
    + by rewrite responseUnauthorized_eq in Hr.
    + done.
    + by destruct He as (_ & _ & _ & _ & _ & Hr).
  - intros Ht. unfold serve. by rewrite (handler_unresolved _ _ Ht).
  - intros Ht. by rewrite (handler_unresolved _ _ Ht).
Qed.

Lemma X5_not_found_iff_unresolved_witness :
  let w := Sample.hub_world Sample.token_200 in
  let unknown := Sample.GET "unknown.api.example.com" "/v2/anything" ∅ in
  let known := Sample.GET "docker.api.example.com" "/v2/" ∅ in
  trace w [] (handler (lib := SimpleUrl.lib) Sample.production unknown) = [] /\
  serve (lib := SimpleUrl.lib) Sample.production w unknown
    = notFound Sample.production /\
  serve (lib := SimpleUrl.lib) Sample.production w known
    <> notFound Sample.production.
Proof.
  intros w unknown known.
  destruct (X5_not_found_iff_unresolved SimpleUrl.lib Sample.production w unknown)
    as [Hiff Hquiet].
  split; [exact (Hquiet eq_refl)|]. split; [exact (proj2 Hiff eq_refl)|].
  intros Hs.
  pose proof (proj1 (proj1 (X5_not_found_iff_unresolved SimpleUrl.lib
                              Sample.production w known)) Hs) as Ht.
  vm_compute in Ht. discriminate Ht.
Defined.

(** X6: every answer of the server is of one of five kinds: the 404 with
    the table, sent without any upstream request; the generic 500; the
    proxy's own 401, sent in place of an upstream 401 outside [/v2/auth]
    after one request; the last upstream response, relayed with its
    status, headers and body unchanged, which outside [/v2/auth] is never
    a 401; or the library redirect, sent without any upstream request. *)
Theorem X6_answers_classified :
  forall (lib : UrlLib) cfg w req,
    let res := serve cfg w req in
    let tr := trace w [] (handler cfg req) in
    (res = notFound cfg /\ tr = []) \/
    res = ResSend 500 "Internal Server Error" \/
    (exists url q resp,
       url_parse_base (req_url req) (base_of req) = Some url /\
       pathname url <> "/v2/auth" /\
       tr = [(q, Some resp)] /\ status resp = 401 /\
       res = responseUnauthorized cfg url) \/
    (exists url q resp,
       url_parse_base (req_url req) (base_of req) = Some url /\
       last tr = Some (q, Some resp) /\ res = ResStream resp /\
       (pathname url <> "/v2/auth" -> status resp <> 401)) \/
    (exists location, tr = [] /\ res = ResRedirect 301 location).
Proof.
  intros lib cfg w req res tr. unfold res, tr, serve.
  pose proof (run_exec w (handler cfg req) []) as He.
  destruct (run w [] (handler cfg req)) as [e|r]; [by right; left|].
  apply handler_outcomes in He as [(_ & -> & ->)|(_ & url & Hu & He)];
    [by left|].
  right. right.
  destruct He as [(Hp & q & resp & -> & Hs & ->)
                 |[(q & resp & Hl & -> & Hs)|(_ & _ & _ & _ & -> & ->)]].
  - left. by exists url, q, resp.
  - right. left. by exists url, q, resp.
  - right. right. eauto.
Qed.

(** X7: handling one client request calls [fetch] at most twice, and at
    most once outside [/v2/auth].  No call asks [fetch] to stop at a
    redirect: the mode is [follow], given or by default, so that one call
    can stand for several requests on the wire, which the handler never
    sees.  Two calls are made only when the first one was answered with a
    401 and a challenge, and the second one is then the only call without
    a redirect option. *)
Theorem X7_bounded_upstream_traffic :
  forall (lib : UrlLib) cfg req tr o,
    exec (handler cfg req) tr o ->
    length tr <= 2 /\
    (forall url,
       url_parse_base (req_url req) (base_of req) = Some url ->
       pathname url <> "/v2/auth" -> length tr <= 1) /\
    (forall q r, (q, r) ∈ tr ->
       fr_redirect q = Some "follow" \/ fr_redirect q = None) /\
    (length tr = 2 ->
     exists d resp t r h,
       tr = [(d, Some resp); (t, r)] /\
       status resp = 401 /\
       resp_headers resp !! "www-authenticate" = Some h /\ h <> "" /\
       fr_redirect d = Some "follow" /\ fr_redirect t = None).
Proof.
  intros lib cfg req tr o He.
  assert (Hcases :
    (length tr <= 1 /\
     forall q r, (q, r) ∈ tr -> fr_redirect q = Some "follow") \/
    (exists url d resp t r h,
       url_parse_base (req_url req) (base_of req) = Some url /\
       pathname url = "/v2/auth" /\
       tr = [(d, Some resp); (t, r)] /\
       status resp = 401 /\
       resp_headers resp !! "www-authenticate" = Some h /\ h <> "" /\
       fr_redirect d = Some "follow" /\ fr_redirect t = None)).
  { apply exec_handler_cases in He
      as [(_ & -> & _)|[_ [(_ & -> & _)|(url & Hu & He)]]];
      [left; split; [simpl; lia|by intros ?? ?%elem_of_nil]..|].
    destruct He as [[_ He]|[[Hp He]|(_ & _ & [(r & _ & -> & _)|[_ He]])]].
    - left.
      apply exec_probe in He as [[-> _]|(? & ? & _ & -> & _)];
        (split; [simpl; lia|]); intros q r Hin.
      + by apply elem_of_nil in Hin.
      + apply list_elem_of_singleton in Hin. by injection Hin as -> _.
    - apply exec_auth_full in He as [[-> _]|(newUrl & _ & He)].
      { left. split; [simpl; lia|by intros ?? ?%elem_of_nil]. }
      assert (Hone : forall x : option UpResponse,
                length [(discovery newUrl, x)] <= 1 /\
                forall q r, (q, r) ∈ [(discovery newUrl, x)] ->
                            fr_redirect q = Some "follow").
      { intros x. split; [simpl; lia|]. intros q r Hin.
        apply list_elem_of_singleton in Hin. by injection Hin as -> _. }
      destruct He as [[-> _]|(resp & He)]; [left; apply Hone|].
      destruct He as [(-> & _)|(h & Hs & Hh & Hne & He)]; [left; apply Hone|].
      destruct He as [(-> & _)|(ch & _ & He)]; [left; apply Hone|].
      destruct He as [(-> & _)|(tokenUrl & r & _ & -> & _)]; [left; apply Hone|].
      right. eexists url, _, resp, _, r, h. repeat (split; [done|]). done.
    - left. split; [simpl; lia|by intros ?? ?%elem_of_nil].
    - left.
      apply exec_forward in He as [[-> _]|(? & ? & ? & _ & _ & -> & _)];
        (split; [simpl; lia|]); intros q r Hin.
      + by apply elem_of_nil in Hin.
      + apply list_elem_of_singleton in Hin. by injection Hin as -> _. }
  destruct Hcases as [[Hlen Hred]|(url & d & resp & t & r & h & Hu & Hp & -> & Hrest)].
  - split; [lia|]. split; [by intros|]. split; [|intros; lia].
    intros q r Hin. left. by eapply Hred.
  - split; [simpl; lia|]. split.
    { intros url' Hu' Hp'. rewrite Hu in Hu'. by injection Hu' as <-. }
    split.
    + destruct Hrest as (_ & _ & _ & Hd & Ht). intros q r' Hin.
      apply elem_of_cons in Hin as [Hin|Hin].
      * injection Hin as -> _. by left.
      * apply list_elem_of_singleton in Hin. injection Hin as -> _. by right.
    + intros _. by exists d, resp, t, r, h.
Qed.

Lemma X7_bounded_upstream_traffic_witness :
  let req := Sample.GET "docker.api.example.com" "/v2/library/busybox/blobs/x" ∅ in
  let auth_req :=
    Sample.GET "docker.api.example.com" "/v2/auth?scope=repository:busybox:pull" ∅ in
  let w := Sample.hub_world Sample.token_200 in
  length (trace w [] (handler (lib := SimpleUrl.lib) Sample.production req)) <= 1 /\
  exists d t r,
    trace w [] (handler (lib := SimpleUrl.lib) Sample.production auth_req)
      = [(d, Some Sample.hub_401); (t, r)] /\
    fr_redirect d = Some "follow" /\ fr_redirect t = None.
Proof.
  intros req auth_req w. split.
  - destruct (X7_bounded_upstream_traffic SimpleUrl.lib Sample.production req _ _
                (run_exec w _ [])) as (_ & Hone & _).
    exact (Hone (Sample.url_docker "/v2/library/busybox/blobs/x" "") eq_refl
             ltac:(discriminate)).
  - destruct (X7_bounded_upstream_traffic SimpleUrl.lib Sample.production auth_req
                _ _ (run_exec w _ [])) as (_ & _ & _ & Htwo).
    destruct (Htwo eq_refl) as (d & resp & t & r & h & Htr & _ & _ & _ & Hd & Ht).
    exists d, t, r. split; [|by split].
    rewrite Htr. vm_compute in Htr. injection Htr as _ <- _ _. reflexivity.
Defined.

(** ** What the server sends upstream *)

(** X8: the request of the generic forwarder has the client's method,
    follows redirects, is addressed to the upstream base followed by the
    client's path and query as they are, and carries the client's body
    exactly when the method is neither GET nor HEAD. *)
Theorem X8_forward_request_shape :
  forall (lib : UrlLib) cfg req url tr o q r,
    url_parse_base (req_url req) (base_of req) = Some url ->
    pathname url <> "/v2/" -> pathname url <> "/v2/auth" ->
    exec (handler cfg req) tr o ->
    (q, r) ∈ tr ->
    fr_method q = req_method req /\
    fr_redirect q = Some "follow" /\
    fr_body q = (if has_body (req_method req) then Some (req_body req) else None) /\
    (req_method req = "GET" \/ req_method req = "HEAD" -> fr_body q = None) /\
    exists newUrl,
      url_parse (JS.to_string (upstream_of cfg req) +:+ pathname url +:+ search url)
        = Some newUrl /\
      fr_url q = href newUrl.
Proof.
  intros lib cfg req url tr o q r Hu H1 H2 He Hin.
  apply exec_handler_cases in He
    as [(_ & -> & _)|[_ [(_ & -> & _)|(url' & Hu' & He)]]];
    [by apply elem_of_nil in Hin..|].
  rewrite Hu in Hu'. injection Hu' as <-.
  destruct He as [[? _]|[[? _]|(_ & _ & [(? & _ & -> & _)|[_ He]])]];
    [done|done|by apply elem_of_nil in Hin|].
  apply exec_forward in He as [[-> _]|(newUrl & up & r' & Hn & _ & -> & _)];
    [by apply elem_of_nil in Hin|].
  apply list_elem_of_singleton in Hin. injection Hin as -> _. simpl.
  split; [done|]. split; [done|]. split; [done|]. split; [|by exists newUrl].
  by intros [->| ->].
Qed.

Lemma X8_forward_request_shape_witness :
  let put : Request :=
    {| req_hostname := Some "ghcr.api.example.com"; req_method := "PUT";
       req_url := "/v2/acme/app/blobs/uploads/7?digest=sha256:ab";
       req_headers := {[ "host" := "ghcr.api.example.com" ]};
       req_body := "layer" |} in
  let w := Sample.constant_world Sample.token_200 in
  (fun x => (fr_url x.1, fr_method x.1, fr_body x.1))
    <$> trace w [] (handler (lib := SimpleUrl.lib) Sample.production put) !! 0
  = Some ("https://ghcr.io/v2/acme/app/blobs/uploads/7?digest=sha256:ab",
          "PUT", Some "layer").
Proof.
  intros put w.
  destruct (trace w [] (handler (lib := SimpleUrl.lib) Sample.production put) !! 0)
    as [[q r]|] eqn:E; [|vm_compute in E; discriminate E].
  destruct (X8_forward_request_shape SimpleUrl.lib Sample.production put
              (Sample.url_at "ghcr.api.example.com"
                 "/v2/acme/app/blobs/uploads/7" "?digest=sha256:ab")
              _ _ q r eq_refl ltac:(discriminate) ltac:(discriminate)
              (run_exec w _ []) (list_elem_of_lookup_2 _ _ _ E))
    as (Hm & _ & Hb & _ & newUrl & Hn & Hurl).
  simpl. rewrite Hm, Hb, Hurl. injection Hn as <-. reflexivity.
Defined.

Lemma authorization_headers_only authorization name :
  name <> "authorization" -> authorization_headers authorization !! name = None.
Proof.
  intros Hn. destruct authorization as [a|]; simpl; [|done].
  destruct (Str.nonempty a); [|done]. by rewrite lookup_singleton_ne.
Qed.

(** X9: whatever the client's method, body and headers, the requests that
    [/v2/] and [/v2/auth] send upstream are GET requests without body, and
    the only client header they can carry is Authorization. *)
Theorem X9_auth_relay_request_shape :
  forall (lib : UrlLib) cfg req url tr o q r,
    url_parse_base (req_url req) (base_of req) = Some url ->
    pathname url = "/v2/" \/ pathname url = "/v2/auth" ->
    exec (handler cfg req) tr o ->
    (q, r) ∈ tr ->
    fr_method q = "GET" /\ fr_body q = None /\
    forall name, name <> "authorization" -> fr_headers q !! name = None.
Proof.
  intros lib cfg req url tr o q r Hu Hp He Hin.
  apply exec_handler_cases in He
    as [(_ & -> & _)|[_ [(_ & -> & _)|(url' & Hu' & He)]]];
    [by apply elem_of_nil in Hin..|].
  rewrite Hu in Hu'. injection Hu' as <-.
  destruct He as [[_ He]|[[_ He]|(H1 & H2 & _)]]; [| |by destruct Hp].
  - apply exec_probe in He as [[-> _]|(? & ? & _ & -> & _)];
      [by apply elem_of_nil in Hin|].
    apply list_elem_of_singleton in Hin. injection Hin as -> _. simpl.
    split; [done|]. split; [done|]. apply authorization_headers_only.
  - assert (Hd : forall newUrl,
              fr_method (discovery newUrl) = "GET" /\
              fr_body (discovery newUrl) = None /\
              forall name, name <> "authorization" ->
                fr_headers (discovery newUrl) !! name = None) by done.
    apply exec_auth_full in He as [[-> _]|(newUrl & _ & He)];
      [by apply elem_of_nil in Hin|].
    destruct He as [[-> _]|(resp & He)].
    { apply list_elem_of_singleton in Hin. injection Hin as -> _. apply Hd. }
    destruct He as [(-> & _)|(h & _ & _ & _ & He)].
    { apply list_elem_of_singleton in Hin. injection Hin as -> _. apply Hd. }
    destruct He as [(-> & _)|(ch & _ & He)].
    { apply list_elem_of_singleton in Hin. injection Hin as -> _. apply Hd. }
    destruct He as [(-> & _)|(tokenUrl & r' & _ & -> & _)].
    { apply list_elem_of_singleton in Hin. injection Hin as -> _. apply Hd. }
    apply elem_of_cons in Hin as [[= -> _]|Hin]; [apply Hd|].
    apply list_elem_of_singleton in Hin. injection Hin as -> _. simpl.
    split; [done|]. split; [done|]. apply authorization_headers_only.
Qed.

Lemma X9_auth_relay_request_shape_witness :
  let post : Request :=
    {| req_hostname := Some "docker.api.example.com"; req_method := "POST";
       req_url := "/v2/?debug=1";
       req_headers := {[ "host" := "docker.api.example.com";
                         "cookie" := "session=1";
                         "authorization" := "Bearer t" ]};
       req_body := "payload" |} in
  let w := Sample.hub_world Sample.token_200 in
  (fun x => (fr_url x.1, fr_method x.1, fr_body x.1, fr_headers x.1 !! "cookie"))
    <$> trace w [] (handler (lib := SimpleUrl.lib) Sample.production post) !! 0
  = Some ("https://registry-1.docker.io/v2/", "GET", None, None).
Proof.
  intros post w.
  destruct (trace w [] (handler (lib := SimpleUrl.lib) Sample.production post) !! 0)
    as [[q r]|] eqn:E; [|vm_compute in E; discriminate E].
  destruct (X9_auth_relay_request_shape SimpleUrl.lib Sample.production post
              (Sample.url_docker "/v2/" "?debug=1") _ _ q r eq_refl
              (or_introl eq_refl) (run_exec w _ [])
              (list_elem_of_lookup_2 _ _ _ E))
    as (Hm & Hb & Hh).
  simpl. rewrite Hm, Hb, (Hh "cookie") by discriminate.
  vm_compute in E. injection E as <- _. reflexivity.
Defined.

Lemma token_address_frame {lib : UrlLib} ch scope url :
  (protocol (token_address ch scope url), hostname (token_address ch scope url),
   port (token_address ch scope url), pathname (token_address ch scope url))
  = (protocol url, hostname url, port url, pathname url).
Proof.
  unfold token_address.
  destruct (Str.nonempty (service ch)), scope as [s|];
    try destruct (Str.nonempty s); reflexivity.
Qed.

(** X10: in [/v2/auth] the client's Authorization header goes to one
    place only: the second request, sent after the upstream answered the
    discovery request with a 401 and a challenge that parsed, and
    addressed to the realm of that challenge, of which only the query is
    changed. *)
Theorem X10_credentials_go_to_the_realm :
  forall (lib : UrlLib) cfg req url tr o i q r,
    url_parse_base (req_url req) (base_of req) = Some url ->
    pathname url = "/v2/auth" ->
    exec (handler cfg req) tr o ->
    tr !! i = Some (q, r) ->
    is_Some (fr_headers q !! "authorization") ->
    i = 1 /\
    fr_headers q !! "authorization" = req_headers req !! "authorization" /\
    exists d resp h ch tokenUrl address,
      tr !! 0 = Some (d, Some resp) /\
      status resp = 401 /\
      resp_headers resp !! "www-authenticate" = Some h /\
      parseAuthenticate h = inr ch /\
      url_parse (realm ch) = Some tokenUrl /\
      fr_url q = href address /\
      (protocol address, hostname address, port address, pathname address)
        = (protocol tokenUrl, hostname tokenUrl, port tokenUrl, pathname tokenUrl).
Proof.
  intros lib cfg req url tr o i q r Hu Hp He Hq [a Ha].
  assert (Hnil : forall A (x : A) j, @nil A !! j = Some x -> False).
  { intros A x j. by rewrite lookup_nil. }
  assert (Hd : forall newUrl (rd : option UpResponse) j,
            [(discovery newUrl, rd)] !! j = Some (q, r) -> False).
  { intros newUrl rd [|j] Hj; simpl in Hj; [|by rewrite lookup_nil in Hj].
    injection Hj as <- _. cbn in Ha. by rewrite lookup_empty in Ha. }
  apply exec_handler_cases in He
    as [(_ & -> & _)|[_ [(_ & -> & _)|(url' & Hu' & He)]]];
    [by destruct (Hnil _ _ _ Hq)..|].
  rewrite Hu in Hu'. injection Hu' as <-.
  destruct He as [[Hp' _]|[[_ He]|(_ & Hp' & _)]]; [by rewrite Hp in Hp'| |done].
  apply exec_auth_full in He as [[-> _]|(newUrl & _ & He)];
    [by destruct (Hnil _ _ _ Hq)|].
  destruct He as [[-> _]|(resp & He)]; [by destruct (Hd _ _ _ Hq)|].
  destruct He as [(-> & _)|(h & Hs & Hh & _ & He)]; [by destruct (Hd _ _ _ Hq)|].
  destruct He as [(-> & _)|(ch & Hc & He)]; [by destruct (Hd _ _ _ Hq)|].
  destruct He as [(-> & _)|(tokenUrl & r' & Hr & -> & _)];
    [by destruct (Hd _ _ _ Hq)|].
  destruct i as [|[|i]]; simpl in Hq.
  - injection Hq as <- _. cbn in Ha. by rewrite lookup_empty in Ha.
  - injection Hq as <- _. split; [done|]. simpl in *. split.
    + rewrite authorization_headers_lookup in Ha |- *.
      destruct (req_headers req !! "authorization") as [b|]; [|done].
      by destruct (Str.nonempty b).
    + eexists _, resp, h, ch, tokenUrl, _.
      repeat (split; [done|]). apply token_address_frame.
  - by rewrite lookup_nil in Hq.
Qed.

Lemma X10_credentials_go_to_the_realm_witness :
  let req :=
    Sample.GET "docker.api.example.com" "/v2/auth?scope=repository:busybox:pull"
      {[ "authorization" := "Basic dTpw" ]} in
  let w := Sample.hub_world Sample.token_200 in
  exists q r address,
    trace w [] (handler (lib := SimpleUrl.lib) Sample.production req) !! 1
      = Some (q, r) /\
    fr_url q = href address /\
    SimpleUrl.parse "https://auth.docker.io/token"
      = Some (set_search address "").
Proof.
  intros req w.
  destruct (trace w [] (handler (lib := SimpleUrl.lib) Sample.production req) !! 1)
    as [[q r]|] eqn:E; [|vm_compute in E; discriminate E].
  destruct (X10_credentials_go_to_the_realm SimpleUrl.lib Sample.production req
              (Sample.url_docker "/v2/auth" "?scope=repository:busybox:pull")
              _ _ 1 q r eq_refl eq_refl (run_exec w _ []) E)
    as (_ & _ & d & resp & h & ch & tokenUrl & address
        & H0 & _ & Hh & Hc & Hr & Hurl & Hframe).
  { vm_compute in E. injection E as <- _. by eexists. }
  exists q, r, address. split; [reflexivity|]. split; [exact Hurl|].
  vm_compute in H0. injection H0 as _ <-.
  vm_compute in Hh. injection Hh as <-.
  vm_compute in Hc. injection Hc as <-.
  vm_compute in Hr. injection Hr as <-.
  destruct address. simpl in Hframe. injection Hframe as -> -> -> ->. reflexivity.
Defined.

(** ** When the server fails *)

Section Failures.

Context {lib : UrlLib}.
Variable cfg : Config.




End Failures.



(** ** Challenge parsing, continued *)

Lemma plain_app a b : Regex.plain (a +:+ b) = Regex.plain a && Regex.plain b.
Proof.
  unfold Regex.plain. rewrite !includes_app, !negb_orb.
  destruct (Str.includes Str.dquote a), (Str.includes Str.backslash a),
    (Str.includes Str.dquote b); reflexivity.
Qed.

Lemma last_char_app a b :
  Regex.last_char (a +:+ b)
    = match Regex.last_char b with Some c => Some c | None => Regex.last_char a end.
Proof.
  induction a as [|x a IH].
  { change ("" +:+ b) with b. by destruct (Regex.last_char b). }
  change (String x a +:+ b) with (String x (a +:+ b)). simpl. rewrite IH.
  by destruct (Regex.last_char b), (Regex.last_char a).
Qed.

Lemma value_body_no_quote s :
  Str.includes Str.dquote s = false -> Regex.value_body s = None.
Proof.
  cut ((Str.includes Str.dquote s = false -> Regex.value_body s = None) /\
       (forall c, Str.includes Str.dquote (String c s) = false ->
                  Regex.value_body (String c s) = None)).
  { by intros [H _]. }
  induction s as [|d s [IH1 IH2]].
  - split; [done|]. intros c. simpl. rewrite orb_false_r. intros ->.
    by destruct (Ascii.eqb c Str.backslash).
  - split; [apply IH2|]. intros c Hq.
    change (Str.includes Str.dquote (String c (String d s)))
      with (Ascii.eqb c Str.dquote || Str.includes Str.dquote (String d s)) in Hq.
    apply orb_false_iff in Hq as [Hc Hq].
    change (Regex.value_body (String c (String d s))) with
      (if Ascii.eqb c Str.dquote then Some ""
       else if Ascii.eqb c Str.backslash then
              if Regex.line_terminator d then None
              else option_map (fun b => String c (String d b)) (Regex.value_body s)
            else option_map (String c) (Regex.value_body (String d s))).
    rewrite Hc, (IH2 d Hq).
    simpl in Hq. apply orb_false_iff in Hq as [_ Hs]. rewrite (IH1 Hs).
    by destruct (Ascii.eqb c Str.backslash), (Regex.line_terminator d).
Qed.

(** No match starts in a text without double quote. *)
Lemma no_quote_tail s : forall p2 p1 skip,
  Str.includes Str.dquote s = false -> Regex.match_all p2 p1 skip s = [].
Proof.
  induction s as [|c s IH]; intros p2 p1 skip Hq.
  - simpl. by destruct skip, (Regex.lookbehind p2 p1).
  - rewrite RegexFacts.match_all_cons, (value_body_no_quote _ Hq).
    simpl in Hq. apply orb_false_iff in Hq as [_ Hs].
    destruct skip, (Regex.lookbehind p2 p1); by apply IH.
Qed.

Lemma single_value_matches pre v post :
  Str.includes Str.dquote pre = false ->
  Regex.plain v = true ->
  Str.includes Str.dquote post = false ->
  Regex.matches (pre +:+ "=" +:+ Str.dq +:+ v +:+ Str.dq +:+ post) = [v].
Proof.
  intros Hpre Hv Hpost. unfold Regex.matches.
  change (pre +:+ "=" +:+ Str.dq +:+ v +:+ Str.dq +:+ post)
    with (pre +:+ String Str.equals (String Str.dquote (v +:+ String Str.dquote post))).
  rewrite (RegexFacts.scan_to_value pre v _ None None Hpre eq_refl Hv).
  by rewrite no_quote_tail.
Qed.

(** X12: the challenge of the proxy's own 401 is one the proxy's own
    parser reads back: for a client host without double quote and
    backslash, parsing the [WWW-Authenticate] value of the helper gives
    the proxy's [/v2/auth] address as realm and [docker-repository-proxy]
    as service. *)
Theorem X12_own_challenge_round_trip :
  forall cfg url,
    let scheme := if is_debug cfg then "http" else "https" in
    let proxy_host := if is_debug cfg then host url else hostname url in
    Regex.plain proxy_host = true ->
    exists challenge,
      header_of (responseUnauthorized cfg url) "WWW-Authenticate" = Some challenge /\
      parseAuthenticate challenge
        = inr {| realm := scheme +:+ "://" +:+ proxy_host +:+ "/v2/auth";
                 service := "docker-repository-proxy" |}.
Proof.
  intros cfg url scheme proxy_host Hplain.
  exists (unauthorized_challenge scheme proxy_host "docker-repository-proxy").
  split.
  { rewrite responseUnauthorized_eq. simpl. apply lookup_singleton_eq. }
  assert (Hs : Regex.plain scheme = true) by (unfold scheme; by destruct (is_debug cfg)).
  replace (unauthorized_challenge scheme proxy_host "docker-repository-proxy")
    with ("Bearer realm" +:+ "=" +:+ Str.dq
            +:+ (scheme +:+ "://" +:+ proxy_host +:+ "/v2/auth") +:+ Str.dq
            +:+ ",service" +:+ "=" +:+ Str.dq +:+ "docker-repository-proxy"
            +:+ Str.dq +:+ "").
  - apply parse_two_values; [done| | |done|done].
    + by rewrite !plain_app, Hs, Hplain.
    + by rewrite !last_char_app.
  - unfold unauthorized_challenge.
    by rewrite !RegexFacts.string_app_assoc.
Qed.

Lemma X12_own_challenge_round_trip_witness :
  exists challenge,
    header_of (responseUnauthorized Sample.production (Sample.url_docker "/v2/" ""))
              "WWW-Authenticate" = Some challenge /\
    parseAuthenticate challenge
      = inr {| realm := "https://docker.api.example.com/v2/auth";
               service := "docker-repository-proxy" |}.
Proof.
  exact (X12_own_challenge_round_trip Sample.production
           (Sample.url_docker "/v2/" "") eq_refl).
Defined.

(** X13: a challenge with fewer than two quoted values cannot be parsed.
    A header without any double quote, and a header with one quoted value
    only, such as a Basic challenge with its realm, both make
    [parseAuthenticate] fail; when the upstream answers the discovery
    request of [/v2/auth] with a 401 and such a header, the client gets
    the generic 500. *)
Theorem X13_basic_challenge_is_an_error :
  forall h,
    Str.includes Str.dquote h = false \/
    (exists pre v post,
       Str.includes Str.dquote pre = false /\
       Regex.plain v = true /\
       Str.includes Str.dquote post = false /\
       h = pre +:+ "=" +:+ Str.dq +:+ v +:+ Str.dq +:+ post) ->
    parseAuthenticate h = inl (InvalidAuthenticate h) /\
    forall (lib : UrlLib) cfg (w : World) req url newUrl resp,
      JS.truthy (upstream_of cfg req) = true ->
      url_parse_base (req_url req) (base_of req) = Some url ->
      pathname url = "/v2/auth" ->
      url_parse (JS.to_string (upstream_of cfg req) +:+ "/v2/") = Some newUrl ->
      w [] (discovery newUrl) = Some resp ->
      status resp = 401 ->
      resp_headers resp !! "www-authenticate" = Some h ->
      h <> "" ->
      serve cfg w req = ResSend 500 "Internal Server Error".
Proof.
  intros h Hh.
  assert (Hfew : length (Regex.matches h) < 2).
  { destruct Hh as [Hq|(pre & v & post & Hpre & Hv & Hpost & ->)].
    - rewrite (RegexFacts.no_quote_no_match _ Hq). simpl. lia.
    - rewrite (single_value_matches _ _ _ Hpre Hv Hpost). simpl. lia. }
  split; [by apply parse_too_few|].
  intros lib cfg w req url newUrl resp Ht Hu Hp Hn Hw Hs Hhd Hne.
  refine (proj2 (malformed_challenge_500 cfg w req url newUrl resp h
                   Ht Hu Hp Hn Hw Hs Hhd _ Hfew)).
  by destruct h.
Qed.

Lemma X13_basic_challenge_is_an_error_witness :
  let basic := "Basic " +:+ Sample.key_value "realm" "Registry Realm" in
  let answer : UpResponse :=
    {| status := 401; resp_headers := {[ "www-authenticate" := basic ]};
       resp_body := None |} in
  parseAuthenticate basic = inl (InvalidAuthenticate basic) /\
  serve (lib := SimpleUrl.lib) Sample.production (Sample.constant_world answer)
        (Sample.GET "quay.api.example.com" "/v2/auth" ∅)
    = ResSend 500 "Internal Server Error".
Proof.
  intros basic answer.
  destruct (X13_basic_challenge_is_an_error basic) as [Hparse H500].
  { right. exists "Basic realm", "Registry Realm", "". by repeat split. }
  split; [exact Hparse|].
  refine (H500 SimpleUrl.lib Sample.production (Sample.constant_world answer)
            (Sample.GET "quay.api.example.com" "/v2/auth" ∅)
            (Sample.url_at "quay.api.example.com" "/v2/auth" "")
            (mkURL "https:" "quay.io" "" "/v2/" "") answer
            eq_refl eq_refl eq_refl eq_refl eq_refl eq_refl eq_refl _).
  discriminate.
Defined.

Lemma match_here p2 p1 s b :
  Regex.lookbehind p2 p1 = true -> Regex.value_body s = Some b ->
  exists later, Regex.match_all p2 p1 0 s = b :: later.
Proof.
  intros Hl Hb. destruct s as [|c s]; [done|].
  rewrite RegexFacts.match_all_cons, Hl, Hb. eauto.
Qed.

(** X14: a first value that ends in an equals sign shifts the parse.  Its
    closing quote, standing behind that equals sign, is taken for the
    opening quote of a value, so the second value returned, the service,
    is the text from there to the next double quote: what stands between
    the two values, with the equals sign of the second parameter. *)
Theorem X14_value_ending_in_equals_shifts_the_parse :
  forall pre v1 mid rest,
    Str.includes Str.dquote pre = false ->
    Regex.plain v1 = true ->
    Regex.last_char v1 = Some Str.equals ->
    Regex.plain mid = true ->
    parseAuthenticate
      (pre +:+ "=" +:+ Str.dq +:+ v1 +:+ Str.dq +:+ mid +:+ "=" +:+ Str.dq +:+ rest)
      = inr {| realm := v1; service := mid +:+ "=" |}.
Proof.
  intros pre v1 mid rest Hpre Hv1 Hlast Hmid.
  unfold parseAuthenticate, Regex.matches.
  change (pre +:+ "=" +:+ Str.dq +:+ v1 +:+ Str.dq +:+ mid +:+ "=" +:+ Str.dq +:+ rest)
    with (pre +:+ String Str.equals (String Str.dquote
            (v1 +:+ String Str.dquote (mid +:+ "=" +:+ String Str.dquote rest)))).
  rewrite (RegexFacts.scan_to_value pre v1 _ None None Hpre eq_refl Hv1).
  unfold Regex.before_closing. rewrite Hlast.
  destruct (match_here (Some Str.equals) (Some Str.dquote)
              (mid +:+ "=" +:+ String Str.dquote rest) (mid +:+ "=") eq_refl)
    as [later ->]; [|done].
  rewrite <- RegexFacts.string_app_assoc.
  apply RegexFacts.value_body_plain. by rewrite plain_app, Hmid.
Qed.

Lemma X14_value_ending_in_equals_shifts_the_parse_witness :
  parseAuthenticate
    ("Bearer " +:+ Sample.key_value "realm" "https://auth.example.com/token?account="
       +:+ "," +:+ Sample.key_value "service" "registry.example.com")
  = inr {| realm := "https://auth.example.com/token?account=";
           service := ",service=" |}.
Proof.
  exact (X14_value_ending_in_equals_shifts_the_parse
           "Bearer realm" "https://auth.example.com/token?account=" ",service"
           ("registry.example.com" +:+ Str.dq) eq_refl eq_refl eq_refl eq_refl).
Defined.

(** ** The settings *)

(** X15: each setting is read with a fallback for a variable that is
    unset or empty, and taken as it is otherwise: [example.com] for the
    custom domain, [production] for the mode, the empty text for the
    fallback upstream.  So domain and mode are never empty, the server is
    in debug mode exactly when [MODE] is the text [debug], and with
    nothing set the server is the production one for [example.com]:
    [docker.example.com] resolves to Docker Hub, and without a mode the
    fallback upstream plays no part in the resolution. *)
Theorem X15_settings_defaults :
  forall custom_domain mode target,
    let cfg := load_config custom_domain mode target in
    (custom_domain = None \/ custom_domain = Some "" ->
     CUSTOM_DOMAIN cfg = "example.com") /\
    (forall s, custom_domain = Some s -> s <> "" -> CUSTOM_DOMAIN cfg = s) /\
    (mode = None \/ mode = Some "" -> MODE cfg = "production") /\
    (forall s, mode = Some s -> s <> "" -> MODE cfg = s) /\
    (target = None -> TARGET_UPSTREAM cfg = "") /\
    (forall s, target = Some s -> TARGET_UPSTREAM cfg = s) /\
    CUSTOM_DOMAIN cfg <> "" /\
    MODE cfg <> "" /\
    (is_debug cfg = true <-> mode = Some "debug") /\
    (custom_domain = None \/ custom_domain = Some "" ->
     routeByHosts cfg "docker.example.com" = JStr dockerHub) /\
    (mode = None \/ mode = Some "" ->
     forall target' h,
       routeByHosts cfg h
         = routeByHosts (load_config custom_domain mode target') h).
Proof.
  intros custom_domain mode target cfg. unfold cfg.
  assert (Hcd : custom_domain = None \/ custom_domain = Some "" ->
                CUSTOM_DOMAIN (load_config custom_domain mode target)
                  = "example.com") by (by intros [->| ->]).
  assert (Hmode : mode = None \/ mode = Some "" ->
                  MODE (load_config custom_domain mode target) = "production")
    by (by intros [->| ->]).
  split; [exact Hcd|]. split.
  { intros s -> Hs. simpl. by destruct s. }
  split; [exact Hmode|]. split.
  { intros s -> Hs. simpl. by destruct s. }
  split; [by intros ->|]. split.
  { intros s ->. simpl. by destruct s. }
  split.
  { simpl. destruct custom_domain as [[|c s]|]; simpl; discriminate. }
  split.
  { simpl. destruct mode as [[|c s]|]; simpl; discriminate. }
  split.
  { unfold is_debug. simpl.
    destruct mode as [[|c s]|]; [by split| |by split].
    change (String.eqb (String c s) "debug" = true <-> Some (String c s) = Some "debug").
    rewrite String.eqb_eq. split; [by intros ->|congruence]. }
  split.
  { intros H. apply routeByHosts_present.
    unfold routes. rewrite (Hcd H). reflexivity. }
  intros H target' h. unfold routeByHosts, is_debug.
  rewrite (Hmode H).
  replace (MODE (load_config custom_domain mode target')) with "production"
    by (by destruct H as [->| ->]).
  reflexivity.
Qed.

Lemma X15_settings_defaults_witness :
  CUSTOM_DOMAIN (load_config (Some "") None (Some "https://quay.io")) = "example.com" /\
  MODE (load_config (Some "") None (Some "https://quay.io")) = "production" /\
  routeByHosts (load_config (Some "") None (Some "https://quay.io"))
    "docker.example.com" = JStr dockerHub /\
  routeByHosts (load_config (Some "") None (Some "https://quay.io")) "other.example.com"
    = routeByHosts (load_config (Some "") None None) "other.example.com".
Proof.
  destruct (X15_settings_defaults (Some "") None (Some "https://quay.io"))
    as (Hd & _ & Hm & _ & _ & _ & _ & _ & _ & Hhub & Hfb).
  split; [exact (Hd (or_intror eq_refl))|].
  split; [exact (Hm (or_introl eq_refl))|].
  split; [exact (Hhub (or_intror eq_refl))|].
  exact (Hfb (or_introl eq_refl) None "other.example.com").
Defined.

(** ** What the auth endpoints read of the client request *)

(** X16: the two auth endpoints read little of the client request.  Two
    requests for the same host with the same Authorization header are
    handled alike at [/v2/auth] when their [scope] parameters agree,
    whatever else their queries hold, and at [/v2/] when the hosts of
    their URLs agree; method, body, other headers and other query
    parameters play no part. *)
Theorem X16_auth_endpoints_read_little :
  forall (lib : UrlLib) cfg req1 req2 url1 url2,
    req_hostname req1 = req_hostname req2 ->
    req_headers req1 !! "authorization" = req_headers req2 !! "authorization" ->
    url_parse_base (req_url req1) (base_of req1) = Some url1 ->
    url_parse_base (req_url req2) (base_of req2) = Some url2 ->
    (pathname url1 = "/v2/auth" -> pathname url2 = "/v2/auth" ->
     query_get (search url1) "scope" = query_get (search url2) "scope" ->
     handler cfg req1 = handler cfg req2) /\
    (pathname url1 = "/v2/" -> pathname url2 = "/v2/" ->
     hostname url1 = hostname url2 -> port url1 = port url2 ->
     handler cfg req1 = handler cfg req2).
Proof.
  intros lib cfg req1 req2 url1 url2 Hh Ha Hu1 Hu2.
  assert (Hup : upstream_of cfg req1 = upstream_of cfg req2).
  { unfold upstream_of. by rewrite Hh. }
  destruct (JS.truthy (upstream_of cfg req1)) eqn:Ht.
  2:{ split; intros; rewrite !handler_unresolved; congruence. }
  rewrite (handler_dispatch _ _ _ Ht Hu1).
  rewrite (handler_dispatch cfg req2 url2); [|by rewrite <- Hup|done].
  rewrite <- Hup, <- Ha. split.
  - intros -> -> Hs. simpl. unfold auth. by rewrite Hs.
  - intros -> -> Hn Hp. simpl. unfold probe.
    assert (E : responseUnauthorized cfg url1 = responseUnauthorized cfg url2).
    { rewrite !responseUnauthorized_eq. unfold host. by rewrite Hn, Hp. }
    by rewrite E.
Qed.

Lemma X16_auth_endpoints_read_little_witness :
  let plain_get :=
    Sample.GET "docker.api.example.com" "/v2/auth?scope=repository:busybox:pull" ∅ in
  let docker_cli : Request :=
    {| req_hostname := Some "docker.api.example.com"; req_method := "POST";
       req_url := "/v2/auth?service=other&scope=repository:busybox:pull&account=me";
       req_headers := {[ "host" := "docker.api.example.com";
                         "user-agent" := "docker/27" ]};
       req_body := "ignored" |} in
  let ping := Sample.GET "docker.api.example.com" "/v2/" ∅ in
  let odd_ping : Request :=
    {| req_hostname := Some "docker.api.example.com"; req_method := "DELETE";
       req_url := "/v2/?n=1";
       req_headers := {[ "host" := "docker.api.example.com" ]};
       req_body := "ignored" |} in
  handler (lib := SimpleUrl.lib) Sample.production plain_get
    = handler (lib := SimpleUrl.lib) Sample.production docker_cli /\
  handler (lib := SimpleUrl.lib) Sample.production ping
    = handler (lib := SimpleUrl.lib) Sample.production odd_ping.
Proof.
  intros plain_get docker_cli ping odd_ping. split.
  - exact (proj1 (X16_auth_endpoints_read_little SimpleUrl.lib Sample.production
                    plain_get docker_cli
                    (Sample.url_docker "/v2/auth" "?scope=repository:busybox:pull")
                    (Sample.url_docker "/v2/auth"
                       "?service=other&scope=repository:busybox:pull&account=me")
                    eq_refl eq_refl eq_refl eq_refl)
             eq_refl eq_refl eq_refl).
  - exact (proj2 (X16_auth_endpoints_read_little SimpleUrl.lib Sample.production
                    ping odd_ping
                    (Sample.url_docker "/v2/" "") (Sample.url_docker "/v2/" "?n=1")
                    eq_refl eq_refl eq_refl eq_refl)
             eq_refl eq_refl eq_refl eq_refl).
Defined.

(** ** Escapes in a challenge *)

Lemma behind_app s t : forall p2 p1,
  Regex.behind p2 p1 (s +:+ t)
    = Regex.behind (fst (Regex.behind p2 p1 s)) (snd (Regex.behind p2 p1 s)) t.
Proof.
  induction s as [|c s IH]; intros p2 p1; [done|].
  change (String c s +:+ t) with (String c (s +:+ t)). apply IH.
Qed.

(** The positions covered by a match are passed over. *)
Lemma skipped s : forall p2 p1 rest,
  Regex.match_all p2 p1 (String.length s) (s +:+ rest)
    = Regex.match_all (fst (Regex.behind p2 p1 s)) (snd (Regex.behind p2 p1 s)) 0 rest.
Proof.
  induction s as [|c s IH]; intros p2 p1 rest; [done|].
  change (String c s +:+ rest) with (String c (s +:+ rest)).
  rewrite RegexFacts.match_all_cons. apply IH.
Qed.

Lemma value_body_app_plain a s :
  Regex.plain a = true ->
  Regex.value_body (a +:+ s) = option_map (String.append a) (Regex.value_body s).
Proof.
  unfold Regex.plain. induction a as [|c a IH]; intros Ha.
  - change ("" +:+ s) with s. by destruct (Regex.value_body s).
  - simpl in Ha. rewrite !negb_orb in Ha.
    apply andb_true_iff in Ha as [[Hq Ha1]%andb_true_iff [Hb Ha2]%andb_true_iff].
    apply negb_true_iff in Hq, Hb.
    change (String c a +:+ s) with (String c (a +:+ s)). simpl.
    rewrite Hq, Hb, IH; [by destruct (Regex.value_body s)|].
    by rewrite Ha1, Ha2.
Qed.

(** A value with one escaped character: how it is matched. *)
Lemma match_escaped_value a c b rest :
  Regex.plain a = true ->
  Regex.line_terminator c = false ->
  Regex.plain b = true ->
  let v := a +:+ String Str.backslash (String c b) in
  Regex.match_all (Some Str.equals) (Some Str.dquote) 0 (v +:+ String Str.dquote rest)
    = v :: Regex.match_all (Regex.last_char (String c b)) (Some Str.dquote) 0 rest.
Proof.
  intros Ha Hc Hb v.
  assert (Hv : Regex.value_body (v +:+ String Str.dquote rest) = Some v).
  { unfold v. rewrite RegexFacts.string_app_assoc, (value_body_app_plain _ _ Ha).
    change (String Str.backslash (String c b) +:+ String Str.dquote rest)
      with (String Str.backslash (String c (b +:+ String Str.dquote rest))).
    change (Regex.value_body
              (String Str.backslash (String c (b +:+ String Str.dquote rest))))
      with (if Regex.line_terminator c then None
            else option_map (fun t => String Str.backslash (String c t))
                   (Regex.value_body (b +:+ String Str.dquote rest))).
    by rewrite Hc, (RegexFacts.value_body_plain _ _ Hb). }
  assert (Hstate :
            Regex.behind (Some Str.equals) (Some Str.dquote) v
              = Regex.behind (Some Str.backslash) (Some c) b).
  { unfold v. by rewrite behind_app. }
  assert (Hquiet :
            Regex.lookbehind (fst (Regex.behind (Some Str.backslash) (Some c) b))
              (snd (Regex.behind (Some Str.backslash) (Some c) b)) = false).
  { destruct b as [|x b]; [reflexivity|].
    rewrite RegexFacts.behind_snd.
    pose proof (RegexFacts.last_char_not_quote _ (RegexFacts.plain_no_quote _ Hb)) as Hl.
    destruct (Regex.last_char (String x b)) as [y|] eqn:E.
    - unfold Regex.lookbehind. apply andb_false_intro2, bool_decide_eq_false_2.
      congruence.
    - simpl in E. by destruct (Regex.last_char b). }
  destruct v as [|x v'] eqn:Ev.
  { unfold v in Ev. by destruct a. }
  change (String x v' +:+ String Str.dquote rest)
    with (String x (v' +:+ String Str.dquote rest)) in *.
  rewrite RegexFacts.match_all_cons. change (Regex.lookbehind _ _) with true.
  cbv iota. rewrite Hv. f_equal. simpl pred.
  rewrite skipped.
  change (Regex.behind (Some Str.dquote) (Some x) v')
    with (Regex.behind (Some Str.equals) (Some Str.dquote) (String x v')).
  rewrite Hstate, (RegexFacts.step _ _ _ _ Hquiet), RegexFacts.behind_snd.
  simpl. by destruct (Regex.last_char b).
Qed.

(** X17: a backslash in a value escapes the character after it, a double
    quote included: that character does not end the value, and the value
    is returned as it stands in the text, backslash and all. *)
Theorem X17_escapes_are_kept :
  forall pre a c b mid v2 post,
    Str.includes Str.dquote pre = false ->
    Regex.plain a = true ->
    Regex.line_terminator c = false ->
    Regex.plain b = true ->
    Regex.last_char (String c b) <> Some Str.equals ->
    Str.includes Str.dquote mid = false ->
    Regex.plain v2 = true ->
    parseAuthenticate
      (pre +:+ "=" +:+ Str.dq +:+ (a +:+ String Str.backslash (String c b)) +:+ Str.dq
           +:+ mid +:+ "=" +:+ Str.dq +:+ v2 +:+ Str.dq +:+ post)
      = inr {| realm := a +:+ String Str.backslash (String c b); service := v2 |}.
Proof.
  intros pre a c b mid v2 post Hpre Ha Hc Hb Hlast Hmid Hv2.
  unfold parseAuthenticate, Regex.matches.
  change (pre +:+ "=" +:+ Str.dq +:+ (a +:+ String Str.backslash (String c b)) +:+ Str.dq
              +:+ mid +:+ "=" +:+ Str.dq +:+ v2 +:+ Str.dq +:+ post)
    with (pre +:+ String Str.equals (String Str.dquote
            ((a +:+ String Str.backslash (String c b)) +:+ String Str.dquote
               (mid +:+ String Str.equals (String Str.dquote
                  (v2 +:+ String Str.dquote post)))))).
  destruct (RegexFacts.quiet pre None None 0
              (String Str.equals (String Str.dquote
                 ((a +:+ String Str.backslash (String c b)) +:+ String Str.dquote
                    (mid +:+ String Str.equals (String Str.dquote
                       (v2 +:+ String Str.dquote post))))))
              Hpre) as [-> Hl]; [done|lia|].
  rewrite (RegexFacts.step _ _ _ _ Hl), RegexFacts.step;
    [|by apply RegexFacts.lookbehind_not_quote].
  rewrite (match_escaped_value a c b _ Ha Hc Hb).
  rewrite (RegexFacts.scan_to_value mid v2 _ _ _ Hmid); [done| |done].
  unfold Regex.lookbehind. apply andb_false_intro1, bool_decide_eq_false_2.
  done.
Qed.

Lemma X17_escapes_are_kept_witness :
  parseAuthenticate
    ("Bearer realm=" +:+ Str.dq
       +:+ ("https://a/t?q=" +:+ String Str.backslash (String Str.dquote "x"))
       +:+ Str.dq +:+ ",service=" +:+ Str.dq +:+ "s" +:+ Str.dq)
  = inr {| realm := "https://a/t?q=" +:+ String Str.backslash (String Str.dquote "x");
           service := "s" |}.
Proof.
  exact (X17_escapes_are_kept "Bearer realm" "https://a/t?q=" Str.dquote "x"
           ",service" "s" "" eq_refl eq_refl eq_refl eq_refl
           ltac:(discriminate) eq_refl eq_refl).
Defined.

(** ** Which hosts are served *)

(** X18: the router answers with an upstream, so that the request is not
    given the 404, exactly for three kinds of host: the keys of the route
    table, the property names every object inherits, and, in debug mode
    with a fallback set, every other host. *)
Theorem X18_served_hosts :
  forall cfg h,
    JS.truthy (routeByHosts cfg h) = true <->
    is_Some (routes cfg !! h) \/
    h ∈ JS.object_prototype_names \/
    (is_debug cfg = true /\ TARGET_UPSTREAM cfg <> "").
Proof.
  intros cfg h.
  destruct (routes cfg !! h) as [u|] eqn:Hr.
  { rewrite (routeByHosts_present _ _ _ Hr). simpl.
    rewrite (routes_values_nonempty _ _ _ Hr). split; [by left; eexists|done]. }
  destruct (decide (h ∈ JS.object_prototype_names)) as [Hin|Hin].
  { rewrite (routeByHosts_inherited _ _ Hr Hin). simpl. split; auto. }
  rewrite (routeByHosts_absent _ _ Hr Hin).
  destruct (is_debug cfg); simpl.
  - destruct (TARGET_UPSTREAM cfg) as [|c t]; simpl.
    + split; [done|]. intros [[? H]|[H|[_ H]]]; done.
    + split; [|done]. intros _. right. right. by split.
  - split; [done|]. intros [[? H]|[H|[H _]]]; done.
Qed.

Lemma X18_served_hosts_witness :
  JS.truthy (routeByHosts Sample.debug "localhost") = true /\
  ~ (is_Some (routes Sample.production !! "localhost") \/
     "localhost" ∈ JS.object_prototype_names \/
     (is_debug Sample.production = true /\ TARGET_UPSTREAM Sample.production <> "")).
Proof.
  split.
  - apply (proj2 (X18_served_hosts Sample.debug "localhost")).
    right. right. split; [reflexivity|discriminate].
  - intros H.
    pose proof (proj2 (X18_served_hosts Sample.production "localhost") H) as Ht.
    vm_compute in Ht. discriminate Ht.
Defined.

(** ** The 401 helper of the older server file *)

(** X19: the 401 helper of the older server file answers like the
    current one but for the service it names: same status, same body,
    and a challenge that parses to the same realm, the proxy's own
    [/v2/auth], with the service [cloudflare-docker-proxy]. *)
Theorem X19_legacy_helper_differs_in_service_only :
  forall cfg url,
    let scheme := if is_debug cfg then "http" else "https" in
    let proxy_host := if is_debug cfg then host url else hostname url in
    Regex.plain proxy_host = true ->
    exists headers old_headers body challenge old_challenge,
      responseUnauthorized cfg url = ResJson 401 headers body /\
      Legacy.responseUnauthorized cfg url = ResJson 401 old_headers body /\
      headers !! "WWW-Authenticate" = Some challenge /\
      old_headers !! "WWW-Authenticate" = Some old_challenge /\
      parseAuthenticate challenge
        = inr {| realm := scheme +:+ "://" +:+ proxy_host +:+ "/v2/auth";
                 service := "docker-repository-proxy" |} /\
      parseAuthenticate old_challenge
        = inr {| realm := scheme +:+ "://" +:+ proxy_host +:+ "/v2/auth";
                 service := "cloudflare-docker-proxy" |}.
Proof.
  intros cfg url scheme proxy_host Hplain.
  assert (Hs : Regex.plain scheme = true) by (unfold scheme; by destruct (is_debug cfg)).
  assert (Hparse : forall svc,
            Regex.plain svc = true ->
            parseAuthenticate (unauthorized_challenge scheme proxy_host svc)
              = inr {| realm := scheme +:+ "://" +:+ proxy_host +:+ "/v2/auth";
                       service := svc |}).
  { intros svc Hsvc.
    replace (unauthorized_challenge scheme proxy_host svc)
      with ("Bearer realm" +:+ "=" +:+ Str.dq
              +:+ (scheme +:+ "://" +:+ proxy_host +:+ "/v2/auth") +:+ Str.dq
              +:+ ",service" +:+ "=" +:+ Str.dq +:+ svc +:+ Str.dq +:+ "").
    - apply parse_two_values; [done| | |done|done].
      + by rewrite !plain_app, Hs, Hplain.
      + by rewrite !last_char_app.
    - unfold unauthorized_challenge. by rewrite !RegexFacts.string_app_assoc. }
  eexists _, _, _, _, _. split; [apply responseUnauthorized_eq|].
  split.
  { unfold Legacy.responseUnauthorized.
    instantiate (1 := {[ "WWW-Authenticate" :=
                           unauthorized_challenge scheme proxy_host
                             "cloudflare-docker-proxy" ]}).
    unfold scheme, proxy_host. by destruct (is_debug cfg). }
  split; [apply lookup_singleton_eq|]. split; [apply lookup_singleton_eq|].
  split; by apply Hparse.
Qed.

Lemma X19_legacy_helper_differs_in_service_only_witness :
  exists old_headers body old_challenge,
    Legacy.responseUnauthorized Sample.production (Sample.url_docker "/v2/" "")
      = ResJson 401 old_headers body /\
    old_headers !! "WWW-Authenticate" = Some old_challenge /\
    parseAuthenticate old_challenge
      = inr {| realm := "https://docker.api.example.com/v2/auth";
               service := "cloudflare-docker-proxy" |}.
Proof.
  destruct (X19_legacy_helper_differs_in_service_only Sample.production
              (Sample.url_docker "/v2/" "") eq_refl)
    as (headers & old_headers & body & challenge & old_challenge
        & _ & Hold & _ & Hh & _ & Hp).
  exists old_headers, body, old_challenge. split; [exact Hold|].
  split; [exact Hh|exact Hp].
Defined.
